(** * MJParser: a shallow embedding of the MacJournal document model

    The development follows [MJParser.py]: the markup tree that
    [xml.dom.minidom] hands to the parser, the node classifier
    [_childFactory], the constructors of [mjdoc], [journal],
    [smart_journal], [TrashJournal] and [entry], the path and keyword
    queries of [_MJElement], the export pass [MakeLaTeX] and the
    listing [hierarchy].

    Calls are functions into a result, [Ok] or [Raise] with the Python
    exception; calls that print, or that change the object they are made
    on, thread that state.  What the module takes from outside, the date
    parser, [float], the file system and the reader of the index, is the
    class [Platform]; the rendering template is the record
    [LaTeXTemplate].  The first part holds the definitions, the second
    the properties. *)

From Stdlib Require Import String Ascii List ZArith Bool Lia DecimalString.
Import ListNotations.
Open Scope string_scope.

Set Implicit Arguments.
Set Warnings "-register-all".

(** ** Exceptions and results *)

(** The exceptions the module raises or lets through. *)
Inductive exn : Type :=
| TypeError
| IndexError
| AttributeError
| ValueError
| LookupError
| KeyError (key : string)
| OSError (msg : string)
| IOError
| NotImplementedError (msg : string).

(** Outcome of a call.  [OutOfFuel] is not a Python outcome: it marks a
    run of the model that was given too little recursion depth. *)
Inductive result (A : Type) : Type :=
| Ok (a : A)
| Raise (e : exn)
| OutOfFuel.

Arguments Ok {A} a.
Arguments Raise {A} e.
Arguments OutOfFuel {A}.

(** A call that reads and writes a state [S] and may raise.  The state
    survives a raise, as a Python object mutated before the exception
    does. *)
Definition M (S A : Type) : Type := S -> result A * S.

Definition ret {S A} (a : A) : M S A := fun s => (Ok a, s).

Definition bind {S A B} (c : M S A) (k : A -> M S B) : M S B :=
  fun s =>
    match c s with
    | (Ok a, s') => k a s'
    | (Raise e, s') => (Raise e, s')
    | (OutOfFuel, s') => (OutOfFuel, s')
    end.

Definition raise {S A} (e : exn) : M S A := fun s => (Raise e, s).

Definition lift {S A} (r : result A) : M S A := fun s => (r, s).

Definition modify {S} (f : S -> S) : M S unit := fun s => (Ok tt, f s).

Declare Scope py_scope.
Delimit Scope py_scope with py.
Notation "x <- c ;; k" := (bind c (fun x => k))
  (at level 61, c at next level, right associativity) : py_scope.
Notation "c ;;; k" := (bind c (fun _ => k))
  (at level 61, right associativity) : py_scope.

(** The pure fragment: results without state. *)
Definition rbind {A B} (r : result A) (k : A -> result B) : result B :=
  match r with
  | Ok a => k a
  | Raise e => Raise e
  | OutOfFuel => OutOfFuel
  end.

Notation "'let?' x := r 'in' k" := (rbind r (fun x => k))
  (at level 61, x name, r at next level, right associativity).

(** [for x in xs: acc = body(acc, x)], stopping at the first raise. *)
Fixpoint for_each {S A B} (xs : list A) (acc : B) (body : B -> A -> M S B)
  : M S B :=
  match xs with
  | [] => ret acc
  | x :: xs' => bind (body acc x) (fun acc' => for_each xs' acc' body)
  end.

(** [seq[0]] on a list. *)
Definition item0 {A} (l : list A) : result A :=
  match l with
  | [] => Raise IndexError
  | a :: _ => Ok a
  end.

(** Truth value of a list in a condition. *)
Definition nonempty {A} (l : list A) : bool :=
  match l with [] => false | _ :: _ => true end.

(** ** Python values that cross the module's boundaries *)

Inductive PyVal : Type :=
| PyNone
| PyStr (s : string)
| PyList (l : list string).

(** [print(...)]: standard output as the list of printed lines. *)
Definition stdout : Type := list string.

Definition newline : string := String (ascii_of_nat 10) "".
Definition tab : string := String (ascii_of_nat 9) "".

(** ** [os.path] (the POSIX flavour) *)

Module os_path.

Definition sep : string := "/".

Definition startswith (s pre : string) : bool := String.prefix pre s.

Fixpoint endswith_sep (s : string) : bool :=
  match s with
  | "" => false
  | String c "" => Ascii.eqb c "/"
  | String _ s' => endswith_sep s'
  end.

(** One step of the loop of [posixpath.join]. *)
Definition join2 (path b : string) : string :=
  if startswith b sep then b
  else if (path =? "") || endswith_sep path then path ++ b
  else path ++ sep ++ b.

(** [os.path.join(a, *p)]. *)
Definition join (a : string) (p : list string) : string :=
  fold_left join2 p a.

(** [p.rfind(c)]: the last index of [c] in [p], or -1. *)
Fixpoint rfind_from (c : ascii) (p : string) (i best : Z) : Z :=
  match p with
  | "" => best
  | String a p' => rfind_from c p' (i + 1) (if Ascii.eqb a c then i else best)
  end.

Definition rfind (c : ascii) (p : string) : Z := rfind_from c p 0 (-1).

(** [p[i:i+1] != extsep] *)
Definition not_dot_at (p : string) (i : Z) : bool :=
  match String.get (Z.to_nat i) p with
  | Some c => negb (Ascii.eqb c ".")
  | None => true
  end.

(** The [while filenameIndex < dotIndex] loop of [genericpath._splitext]:
    [true] when it leaves through its [return], that is when some
    character of the file name before the last dot is not a dot.
    [n] counts the iterations left, [dotIndex - filenameIndex]. *)
Fixpoint skip_leading_dots (n : nat) (p : string) (filenameIndex : Z) : bool :=
  match n with
  | O => false
  | S n' =>
      if not_dot_at p filenameIndex then true
      else skip_leading_dots n' p (filenameIndex + 1)
  end.

(** [os.path.splitext(p)] *)
Definition splitext (p : string) : string * string :=
  let sepIndex := rfind "/" p in
  let dotIndex := rfind "." p in
  if (sepIndex <? dotIndex)%Z
     && skip_leading_dots (Z.to_nat (dotIndex - (sepIndex + 1))) p (sepIndex + 1)
  then (substring 0 (Z.to_nat dotIndex) p,
        substring (Z.to_nat dotIndex) (String.length p - Z.to_nat dotIndex) p)
  else (p, "").

End os_path.

(** ** The markup tree of [xml.dom.minidom] *)

(** The node kinds the parser can meet in an index document. *)
Inductive Node : Type :=
| Document (childNodes : list Node)
| Element (tagName : string) (attributes : list (string * string))
          (childNodes : list Node)
| Text (data : string)
| CDATASection (data : string)
| Comment (data : string)
| ProcessingInstruction (target data : string).

Module minidom.

Definition nodeName (n : Node) : string :=
  match n with
  | Document _ => "#document"
  | Element t _ _ => t
  | Text _ => "#text"
  | CDATASection _ => "#cdata-section"
  | Comment _ => "#comment"
  | ProcessingInstruction t _ => t
  end.

(** [node.childNodes]; empty for the childless kinds. *)
Definition childNodes (n : Node) : list Node :=
  match n with
  | Document cs => cs
  | Element _ _ cs => cs
  | _ => []
  end.

(** [node.nodeValue] *)
Definition nodeValue (n : Node) : PyVal :=
  match n with
  | Document _ => PyNone
  | Element _ _ _ => PyNone
  | Text d => PyStr d
  | CDATASection d => PyStr d
  | Comment d => PyStr d
  | ProcessingInstruction _ d => PyStr d
  end.

Definition firstChild (n : Node) : option Node :=
  match childNodes n with
  | [] => None
  | c :: _ => Some c
  end.

(** Text and CDATA nodes: the kinds [wholeText] runs over. *)
Definition text_data (n : Node) : option string :=
  match n with
  | Text d => Some d
  | CDATASection d => Some d
  | _ => None
  end.

(** The [nextSibling] loop of [Text.wholeText]: data of the text nodes
    that follow without interruption. *)
Fixpoint following_text (siblings : list Node) : string :=
  match siblings with
  | [] => ""
  | n :: rest =>
      match text_data n with
      | Some d => d ++ following_text rest
      | None => ""
      end
  end.

(** [n.firstChild.wholeText]: an [AttributeError] when there is no first
    child ([None] has no attributes) or when it is not a text node.  A
    first child has no previous sibling, so only the following text
    nodes are joined to it. *)
Definition firstChild_wholeText (n : Node) : result string :=
  match childNodes n with
  | [] => Raise AttributeError
  | c :: rest =>
      match text_data c with
      | Some d => Ok (d ++ following_text rest)
      | None => Raise AttributeError
      end
  end.

(** [n.firstChild.nodeValue] *)
Definition firstChild_nodeValue (n : Node) : result PyVal :=
  match firstChild n with
  | None => Raise AttributeError
  | Some c => Ok (nodeValue c)
  end.

Definition tag_matches (name : string) (n : Node) : bool :=
  match n with
  | Element t _ _ => (name =? "*") || (t =? name)
  | _ => false
  end.

(** [_get_elements_by_tagName_helper(parent, name, rc)]: every element
    below [parent] with the tag, in document order, appended to [rc]. *)
Fixpoint _get_elements_by_tagName_helper (parent : Node) (name : string)
         (rc : list Node) {struct parent} : list Node :=
  let loop :=
    fix loop (nodes : list Node) (rc : list Node) {struct nodes} : list Node :=
      match nodes with
      | [] => rc
      | node :: nodes' =>
          let rc := if tag_matches name node then (rc ++ [node])%list else rc in
          loop nodes' (_get_elements_by_tagName_helper node name rc)
      end in
  match parent with
  | Document cs => loop cs rc
  | Element _ _ cs => loop cs rc
  | _ => rc
  end.

(** [node.getElementsByTagName(name)]: a method of documents and
    elements only. *)
Definition getElementsByTagName (n : Node) (name : string) : result (list Node) :=
  match n with
  | Document _ | Element _ _ _ => Ok (_get_elements_by_tagName_helper n name [])
  | _ => Raise AttributeError
  end.

(** [dict(lst)] lookup on the pairs of [attributes.items()]: with a
    repeated key the last pair wins. *)
Fixpoint dict_get (k : string) (items : list (string * string)) : option string :=
  match items with
  | [] => None
  | (k', v) :: rest =>
      match dict_get k rest with
      | Some v' => Some v'
      | None => if k' =? k then Some v else None
      end
  end.

(** [node.attributes.items()]; [attributes] is [None] on the other
    kinds. *)
Definition attributes_items (n : Node) : result (list (string * string)) :=
  match n with
  | Element _ a _ => Ok a
  | _ => Raise AttributeError
  end.

(** [node.attributes.getNamedItem(k).value] *)
Definition getNamedItem_value (n : Node) (k : string) : result string :=
  match n with
  | Element _ a _ =>
      match dict_get k a with
      | Some v => Ok v
      | None => Raise AttributeError
      end
  | _ => Raise AttributeError
  end.

(** [element.getAttribute(k)]: the empty string when absent. *)
Definition getAttribute (n : Node) (k : string) : result string :=
  match n with
  | Element _ a _ =>
      match dict_get k a with
      | Some v => Ok v
      | None => Ok ""
      end
  | _ => Raise AttributeError
  end.

End minidom.

(** ** External collaborators *)

(** [datetime.datetime.strptime] raises a [TypeError] for a bad call and
    a [ValueError] for text that does not match. *)
Inductive strptime_error : Type := BadCall | BadText.

Definition strptime_exn (e : strptime_error) : exn :=
  match e with
  | BadCall => TypeError
  | BadText => ValueError
  end.

(** What the module takes from the standard library and the operating
    system: the date parser, [float], the file system with [os.path.isdir],
    [os.path.normpath], [os.path.abspath] and [os.mkdir], and the reader of
    the index ([gzip.GzipFile] followed by [xml.dom.minidom.parse]).
    [None] from [os_mkdir] is an [OSError], from [float_of_str] a
    [ValueError], from [read_index] an [IOError]. *)
Class Platform : Type := {
  datetime : Type;
  strptime : list PyVal -> datetime + strptime_error;
  float : Type;
  float_of_str : string -> option float;
  FS : Type;
  os_path_isdir : FS -> string -> bool;
  os_path_normpath : string -> string;
  os_path_abspath : FS -> string -> string;
  os_mkdir : FS -> string -> option FS;
  read_index : FS -> string -> option Node;
  os_mkdir_isdir : forall f p f', os_mkdir f p = Some f' -> os_path_isdir f' p = true
}.

(** ** Objects *)

(** An object as the upward queries see it.  A child holds a reference to
    its parent; [FullName], [RelativePath], [AbsolutePath] and [RealPath]
    read through it the parent's [name], [_realpath] and [Parent] (for the
    document its [abs_path] and [rel_path]).  A journal assigns these three
    before it constructs its children and nothing assigns them again, so
    the reference is kept as the value of those attributes. *)
Inductive MJObject : Type :=
| O_mjdoc (abs_path rel_path : string)
| O_element (Parent : MJObject) (name : string) (_realpath : option string).

(** Truth value of [None] or a string in a condition. *)
Definition str_truthy (v : option string) : bool :=
  match v with
  | None => false
  | Some s => negb (s =? "")
  end.

(** [mjdoc.FullName] and [_MJElement.FullName] *)
Fixpoint FullName (self : MJObject) : option string :=
  match self with
  | O_mjdoc _ _ => None
  | O_element Parent name _ =>
      match FullName Parent with
      | Some n => if str_truthy (Some n) then Some (n ++ "/" ++ name) else Some name
      | None => Some name
      end
  end.

(** [mjdoc.RelativePath] and [_MJElement.RelativePath] *)
Fixpoint RelativePath (self : MJObject) : string :=
  match self with
  | O_mjdoc _ rel_path => rel_path
  | O_element Parent name _ => os_path.join (RelativePath Parent) [name]
  end.


(** [mjdoc.RealPath] and [_MJElement.RealPath] *)
Fixpoint RealPath (self : MJObject) : string :=
  match self with
  | O_mjdoc abs_path _ => abs_path
  | O_element Parent _ _realpath =>
      match _realpath with
      | Some p => if str_truthy (Some p) then os_path.join (RealPath Parent) [p]
                  else RealPath Parent
      | None => RealPath Parent
      end
  end.

Section Elements.

Context {P : Platform}.

(** The attributes [_MJElement.__init__] assigns. *)
Record MJElement_base : Type := mkBase {
  xml : Node;
  Parent : MJObject;
  verbose : bool;
  _realpath : option string;
  _childNodes : list Node;
  date : datetime;
  created : datetime;
  modified : datetime
}.

(** The attributes every element has once its class's constructor is
    through; [None] in the last three is an attribute not assigned
    ([hasattr] is false). *)
Record MJElement_attrs : Type := mkAttrs {
  base : MJElement_base;
  name : string;
  _keywordsElements : option Node;
  _keywords : option (list string);
  _texdir : option string
}.

(** The attributes of a journal.  [children] owns the child objects;
    [Entries] and [Journals] hold the same objects again, kept here as
    their positions in [children] so that a write through one is seen
    through the others.  [children] is not assigned by a trash
    journal. *)
Record journal_attrs (E : Type) : Type := mkJournal {
  Entries : list nat;
  Journals : list (string * nat);
  children : option (list E);
  _includes : option PyVal
}.

(** The attributes of an entry. *)
Record entry_attrs : Type := mkEntry {
  topic : string;
  content : list (string * string);
  filename : string
}.

(** The classes derived from [journal], itself included. *)
Inductive JournalClass : Type := journal | smart_journal | TrashJournal.

(** An element: an instance of a journal class or of [entry]. *)
Inductive MJElement : Type :=
| Journal (cls : JournalClass) (a : MJElement_attrs) (j : journal_attrs MJElement)
| Entry (a : MJElement_attrs) (e : entry_attrs).

Definition attrs (self : MJElement) : MJElement_attrs :=
  match self with
  | Journal _ a _ => a
  | Entry a _ => a
  end.

Definition with_attrs (self : MJElement) (a : MJElement_attrs) : MJElement :=
  match self with
  | Journal c _ j => Journal c a j
  | Entry _ e => Entry a e
  end.

(** [isinstance(self, journal)] *)
Definition isinstance_journal (self : MJElement) : bool :=
  match self with
  | Journal _ _ _ => true
  | Entry _ _ => false
  end.

(** The object as its children and the upward queries see it. *)
Definition as_object (a : MJElement_attrs) : MJObject :=
  O_element (Parent (base a)) (name a) (_realpath (base a)).

Definition element_object (self : MJElement) : MJObject := as_object (attrs self).

Definition set__realpath (v : option string) (b : MJElement_base) : MJElement_base :=
  mkBase (xml b) (Parent b) (verbose b) v (_childNodes b) (date b) (created b) (modified b).

Definition set__keywordsElements (v : option Node) (a : MJElement_attrs) : MJElement_attrs :=
  mkAttrs (base a) (name a) v (_keywords a) (_texdir a).

Definition set__keywords (v : option (list string)) (a : MJElement_attrs) : MJElement_attrs :=
  mkAttrs (base a) (name a) (_keywordsElements a) v (_texdir a).

Definition set__texdir (v : option string) (a : MJElement_attrs) : MJElement_attrs :=
  mkAttrs (base a) (name a) (_keywordsElements a) (_keywords a) v.

Definition set_base (b : MJElement_base) (a : MJElement_attrs) : MJElement_attrs :=
  mkAttrs b (name a) (_keywordsElements a) (_keywords a) (_texdir a).

(** [print(s)] *)
Definition print (s : string) : M stdout unit := modify (fun o => (o ++ [s])%list).

(** ** Construction *)

(** One round of the loop of [_MJElement.__init__]: the first child node
    named [attr], and [strptime] called on its text alone. *)
Definition date_attribute (_childNodes : list Node) (attr : string) : result datetime :=
  let? dateNode := item0 (filter (fun node => minidom.nodeName node =? attr) _childNodes) in
  let? text := minidom.firstChild_nodeValue dateNode in
  match strptime [text] with
  | inl d => Ok d
  | inr e => Raise (strptime_exn e)
  end.

(** [_MJElement.__init__(self, xml, Parent, verbose)] *)
Definition _MJElement___init__ (xml : Node) (Parent : MJObject) (verbose : bool)
  : result MJElement_base :=
  let _realpath := Some "" in
  let _childNodes := minidom.childNodes xml in
  let? date := date_attribute _childNodes "date" in
  let? created := date_attribute _childNodes "created" in
  let? modified := date_attribute _childNodes "modified" in
  Ok (mkBase xml Parent verbose _realpath _childNodes date created modified).

(** [d[k] = v] on an ordered dictionary: a new key goes last, a known
    key keeps its place. *)
Fixpoint odict_set {V} (k : string) (v : V) (d : list (string * V)) : list (string * V) :=
  match d with
  | [] => [(k, v)]
  | (k', v') :: d' =>
      if k' =? k then (k, v) :: d' else (k', v') :: odict_set k v d'
  end.

(** A call [_childFactory(node, Parent=..., verbose=..., **kwargs)]:
    [_childFactory] takes no other keyword, so any entry of [kwargs]
    is a [TypeError]. *)
Definition call__childFactory
           (_childFactory : Node -> MJObject -> bool -> M stdout MJElement)
           (node : Node) (Parent : MJObject) (verbose : bool)
           (kwargs : list (string * PyVal)) : M stdout MJElement :=
  if nonempty kwargs then raise TypeError
  else _childFactory node Parent verbose.

Local Open Scope py_scope.

(** The text of the first element of the tag below [xml]:
    [xml.getElementsByTagName(tag)[0].firstChild.wholeText]. *)
Definition first_text (xml : Node) (tag : string) : result string :=
  let? elements := minidom.getElementsByTagName xml tag in
  let? element := item0 elements in
  minidom.firstChild_wholeText element.

(** [journal._parseContents(self, **kwargs)].  The [else] of the
    [isinstance] chain cannot be taken: a child is an instance of a
    journal class or of [entry]. *)
Definition journal__parseContents
           (_childFactory : Node -> MJObject -> bool -> M stdout MJElement)
           (a : MJElement_attrs) (j : journal_attrs MJElement)
           (kwargs : list (string * PyVal))
  : M stdout (MJElement_attrs * journal_attrs MJElement) :=
  let j := mkJournal (Entries j) (Journals j) (Some []) (_includes j) in
  children_ <- lift (minidom.getElementsByTagName (xml (base a)) "children") ;;
  match children_ with
  | [] => ret (a, j)
  | children0 :: _ =>
      j <- for_each (minidom.childNodes children0) j
        (fun j childNode =>
           child <- call__childFactory _childFactory childNode (as_object a)
                      (verbose (base a)) kwargs ;;
           let i := length (match children j with Some cs => cs | None => [] end) in
           let cs := option_map (fun cs => (cs ++ [child])%list) (children j) in
           if isinstance_journal child
           then ret (mkJournal (Entries j) (odict_set (name (attrs child)) i (Journals j))
                               cs (_includes j))
           else ret (mkJournal (Entries j ++ [i])%list (Journals j) cs (_includes j))) ;;
      prototype <- lift (minidom.getElementsByTagName (xml (base a)) "prototype") ;;
      match prototype with
      | [] => ret (a, j)
      | proto :: _ =>
          keywordsElements <- lift (minidom.getElementsByTagName proto "keywords") ;;
          match keywordsElements with
          | [] => ret (a, j)
          | k0 :: _ => ret (set__keywordsElements (Some k0) a, j)
          end
      end
  end.

(** [TrashJournal._parseContents(self, **kwargs)] *)
Definition TrashJournal__parseContents
           (a : MJElement_attrs) (j : journal_attrs MJElement)
           (kwargs : list (string * PyVal))
  : M stdout (MJElement_attrs * journal_attrs MJElement) :=
  print " _parseContents doesn't do anything at the moment for Trash" ;;;
  ret (a, j).

(** [self._parseContents] with the keyword arguments, by the class of [self]. *)
Definition _parseContents
           (_childFactory : Node -> MJObject -> bool -> M stdout MJElement)
           (cls : JournalClass) :=
  match cls with
  | TrashJournal => TrashJournal__parseContents
  | journal | smart_journal => journal__parseContents _childFactory
  end.

(** [journal.__init__(self, xml, Parent, verbose, **kwargs)], shared by
    the three journal classes. *)
Definition journal___init__
           (_childFactory : Node -> MJObject -> bool -> M stdout MJElement)
           (cls : JournalClass) (xml : Node) (Parent : MJObject) (verbose : bool)
           (kwargs : list (string * PyVal)) : M stdout MJElement :=
  b <- lift (_MJElement___init__ xml Parent verbose) ;;
  name <- lift (first_text xml "name") ;;
  let a := mkAttrs b name None None None in
  (if verbose
   then match FullName (as_object a) with
        | Some n => print (tab ++ "name: " ++ n)
        | None => print (tab ++ "name: None")
        end
   else ret tt) ;;;
  let a := set_base (set__realpath None b) a in
  let j := mkJournal [] [] None None in
  aj <- _parseContents _childFactory cls a j kwargs ;;
  ret (Journal cls (fst aj) (snd aj)).

(** [dict(items)] *)
Definition dict (items : list (string * string)) : list (string * string) :=
  fold_left (fun d kv => odict_set (fst kv) (snd kv) d) items [].

(** [d[k]] *)
Definition dict_item (d : list (string * string)) (k : string) : result string :=
  match minidom.dict_get k d with
  | Some v => Ok v
  | None => Raise (KeyError k)
  end.

(** [entry.__init__(self, xml, Parent, verbose, **kwargs)] *)
Definition entry___init__ (xml : Node) (Parent : MJObject) (verbose : bool)
           (kwargs : list (string * PyVal)) : result MJElement :=
  let? b := _MJElement___init__ xml Parent verbose in
  let? topicElement := minidom.getElementsByTagName xml "topic" in
  let? topic :=
    match topicElement with
    | t0 :: _ => minidom.firstChild_wholeText t0
    | [] => Ok ""
    end in
  let name := topic in
  let? keywordsElements := minidom.getElementsByTagName xml "keywords" in
  let _keywordsElements :=
    match keywordsElements with
    | k0 :: _ => Some k0
    | [] => None
    end in
  let? contentElements := minidom.getElementsByTagName xml "content" in
  let? content0 := item0 contentElements in
  let? items := minidom.attributes_items content0 in
  let content := dict items in
  let? type := dict_item content "type" in
  let extension := snd (os_path.splitext type) in
  let? id := dict_item content "id" in
  let filename := id ++ extension in
  let b := set__realpath (Some (os_path.join "Content" [filename])) b in
  Ok (Entry (mkAttrs b name _keywordsElements None None)
            (mkEntry topic content filename)).

Definition unknown_child_type (nodeName : string) : exn :=
  NotImplementedError ("I don't know how to deal with child type: " ++ nodeName).

(** The body of [_childFactory(xml, Parent, verbose)]; [self] is the
    function itself, for the children of a journal. *)
Definition _childFactory_body
           (self : Node -> MJObject -> bool -> M stdout MJElement)
           (xml : Node) (Parent : MJObject) (verbose : bool) : M stdout MJElement :=
  let nodeName := minidom.nodeName xml in
  if nodeName =? "smart_journal" then
    (if verbose
     then id <- lift (minidom.getNamedItem_value xml "id") ;;
          print ("Smart Journal" ++ newline ++ tab ++ "id=" ++ id)
     else ret tt) ;;;
    journal___init__ self smart_journal xml Parent verbose []
  else if nodeName =? "journal" then
    (if verbose
     then id <- lift (minidom.getNamedItem_value xml "id") ;;
          print ("Journal" ++ newline ++ tab ++ "id=" ++ id)
     else ret tt) ;;;
    name <- lift (first_text xml "name") ;;
    if name =? "Trash"
    then journal___init__ self TrashJournal xml Parent verbose []
    else journal___init__ self journal xml Parent verbose []
  else if nodeName =? "entry" then
    lift (entry___init__ xml Parent verbose [])
  else raise (unknown_child_type nodeName).

(** [_childFactory], with [fuel] bounding how deep journals may nest.
    Fuel is spent only where a journal constructs a child. *)
Fixpoint _childFactory (fuel : nat) (xml : Node) (Parent : MJObject) (verbose : bool)
  : M stdout MJElement :=
  _childFactory_body
    (fun xml' Parent' verbose' =>
       match fuel with
       | O => lift OutOfFuel
       | S fuel' => _childFactory fuel' xml' Parent' verbose'
       end)
    xml Parent verbose.

(** ** The document *)

Record mjdoc : Type := mkDoc {
  doc_verbose : bool;
  path : string;
  abs_path : string;
  Content : string;
  rel_path : string;
  indexPath : string;
  index_ : Node;
  macjournalml : Node;
  bookcase : Node;
  doc_Journals : list (string * MJElement);
  doc__texdir : option string
}.

(** The document as its journals see it. *)
Definition mjdoc_object (d : mjdoc) : MJObject := O_mjdoc (abs_path d) (rel_path d).

Definition set_doc_Journals (js : list (string * MJElement)) (d : mjdoc) : mjdoc :=
  mkDoc (doc_verbose d) (path d) (abs_path d) (Content d) (rel_path d) (indexPath d)
        (index_ d) (macjournalml d) (bookcase d) js (doc__texdir d).

Definition set_doc__texdir (t : option string) (d : mjdoc) : mjdoc :=
  mkDoc (doc_verbose d) (path d) (abs_path d) (Content d) (rel_path d) (indexPath d)
        (index_ d) (macjournalml d) (bookcase d) (doc_Journals d) t.

(** [mjdoc.__init__(self, path, verbose, **kwargs)] on the file system
    [f]; [fuel] bounds the nesting of journals. *)
Definition mjdoc___init__ (fuel : nat) (f : FS) (path : string) (verbose : bool)
           (kwargs : list (string * PyVal)) : M stdout mjdoc :=
  if negb (os_path_isdir f path)
  then raise (OSError ("The MacJournal document " ++ path ++ " doesn't exist"))
  else
    let path_ := os_path_normpath path in
    let abs_path := os_path_abspath f path in
    let Content := os_path.join path_ ["Content"] in
    let rel_path := "" in
    let indexPath := os_path.join path_ ["index.mjml.gz"] in
    print indexPath ;;;
    index <- lift (match read_index f indexPath with
                   | Some doc => Ok doc
                   | None => Raise IOError
                   end) ;;
    ms <- lift (minidom.getElementsByTagName index "macjournalml") ;;
    macjournalml <- lift (item0 ms) ;;
    bs <- lift (minidom.getElementsByTagName macjournalml "bookcase") ;;
    bookcase <- lift (item0 bs) ;;
    cs <- lift (minidom.getElementsByTagName bookcase "children") ;;
    children <- lift (item0 cs) ;;
    let self := mkDoc verbose path_ abs_path Content rel_path indexPath index
                      macjournalml bookcase [] None in
    for_each (minidom.childNodes children) self
      (fun self child =>
         J <- call__childFactory (_childFactory fuel) child (mjdoc_object self)
                (doc_verbose self) kwargs ;;
         ret (set_doc_Journals (odict_set (name (attrs J)) J (doc_Journals self)) self)).

(** ** Keywords *)

(** [self._keywords], an [AttributeError] while it is not assigned. *)
Definition get__keywords : M MJElement (list string) :=
  fun self =>
    match _keywords (attrs self) with
    | Some ks => (Ok ks, self)
    | None => (Raise AttributeError, self)
    end.

Definition assign__keywords (ks : list string) : M MJElement unit :=
  modify (fun self => with_attrs self (set__keywords (Some ks) (attrs self))).

(** [word in words] *)
Definition str_in (word : string) (words : list string) : bool :=
  existsb (String.eqb word) words.

(** [_MJElement.keywords(self)]; the state is [self].  The method hands
    out the cached list itself; the model returns its content.  The cache
    is assigned before the loop runs, so a raise in the loop leaves what
    was gathered so far. *)
Definition keywords : M MJElement (list string) :=
  fun self =>
    match _keywords (attrs self) with
    | Some ks => (Ok ks, self)
    | None =>
        (assign__keywords [] ;;;
         match _keywordsElements (attrs self) with
         | Some template =>
             keywordElements <- lift (minidom.getElementsByTagName template "keyword") ;;
             if nonempty keywordElements
             then for_each keywordElements tt
                    (fun _ keyword =>
                       word <- lift (minidom.firstChild_wholeText keyword) ;;
                       ks <- get__keywords ;;
                       if negb (str_in word ks)
                       then word' <- lift (minidom.firstChild_wholeText keyword) ;;
                            assign__keywords (ks ++ [word'])%list
                       else ret tt)
             else ret tt
         | None => ret tt
         end ;;;
         get__keywords) self
    end.

(** ** Location of an entry *)

(** [float(s)] *)
Definition py_float (s : string) : result float :=
  match float_of_str s with
  | Some x => Ok x
  | None => Raise ValueError
  end.

(** [float(locElement[0].getAttribute(attribute))] when the entry has a
    [location] element, [None] otherwise: the body shared by
    [entry.latitude] and [entry.longitude].  Journals have neither
    method. *)
Definition location_attribute (self : MJElement) (attribute : string)
  : result (option float) :=
  match self with
  | Journal _ _ _ => Raise AttributeError
  | Entry a _ =>
      let? locElement := minidom.getElementsByTagName (xml (base a)) "location" in
      match locElement with
      | l0 :: _ =>
          let? text := minidom.getAttribute l0 attribute in
          let? x := py_float text in
          Ok (Some x)
      | [] => Ok None
      end
  end.

(** [entry.latitude(self)] *)
Definition latitude (self : MJElement) : result (option float) :=
  location_attribute self "latitude".

(** [entry.longitude(self)] *)
Definition longitude (self : MJElement) : result (option float) :=
  location_attribute self "longitude".

(** [entry.location(self)]: [None] or the pair. *)
Definition location (self : MJElement) : result (option (float * option float)) :=
  let? lat := latitude self in
  let? lon := longitude self in
  match lat with
  | None => Ok None
  | Some x => Ok (Some (x, lon))
  end.

(** ** Export *)

(** Modelled from the spec: the [LaTeX.LaTeXTemplate] object handed to
    [MakeLaTeX], which is not part of this module: a line accumulator
    [lines] and a table [LaTeXLevels] from heading depth to heading
    name.  A depth the table does not have is a [LookupError]. *)
Record LaTeXTemplate : Type := mkLT {
  LaTeXLevels : Z -> option string;
  lines : list string
}.

(** What the export pass reads and writes outside the elements. *)
Record World : Type := mkWorld {
  LT : LaTeXTemplate;
  fs : FS;
  out : stdout
}.

(** [LT.lines.append(line)] *)
Definition lines_append (line : string) (w : World) : World :=
  mkWorld (mkLT (LaTeXLevels (LT w)) (lines (LT w) ++ [line])%list) (fs w) (out w).

Definition world_print (s : string) (w : World) : World :=
  mkWorld (LT w) (fs w) (out w ++ [s])%list.

Definition set_fs (f : FS) (w : World) : World := mkWorld (LT w) f (out w).

(** The line of a journal: two newlines, a backslash, the heading name
    and the text in braces. *)
Definition journal_line (texLevel name : string) : string :=
  newline ++ newline ++ "\" ++ texLevel ++ "{" ++ name ++ "}".

(** The line of an entry: the same with a star after the heading name. *)
Definition entry_line (texLevel name : string) : string :=
  newline ++ newline ++ "\" ++ texLevel ++ "*{" ++ name ++ "}".

(** The parameters after [self] of the [MakeLaTeX] of the class of
    [self], each with whether it has a default. *)
Definition MakeLaTeX_parameters (self : MJElement) : list (string * bool) :=
  match self with
  | Journal smart_journal _ _ => [("texdir", false); ("level", true)]
  | Journal _ _ _ => [("LT", false); ("texdir", false); ("level", true)]
  | Entry _ _ => [("LT", false); ("texdir", false); ("level", true)]
  end.

(** Whether a call with [npos] positional arguments and the given
    keywords binds to the parameters: not when there are too many
    positional arguments, when a keyword names no parameter or one that
    a positional argument already fills, or when a parameter without
    default is left without a value. *)
Definition binds (parameters : list (string * bool)) (npos : nat)
           (keywords : list string) : bool :=
  let open := skipn npos parameters in
  (npos <=? length parameters)%nat
  && forallb (fun k => str_in k (map fst open)) keywords
  && forallb (fun p => snd p || str_in (fst p) keywords) open.

(** [self.MakeLaTeX(LT, texdir, level)] once the arguments are bound:
    [journal.MakeLaTeX], [smart_journal.MakeLaTeX] (whose own parameters
    are [texdir] and [level]) and [entry.MakeLaTeX].  The result comes
    with [self] and the world as the call leaves them. *)
Fixpoint MakeLaTeX (self : MJElement) (texdir : string) (level : Z) (w : World)
         {struct self} : result PyVal * MJElement * World :=
  match self with
  | Entry a e =>
      let a := set__texdir (Some texdir) a in
      let path := os_path.join texdir [name a] in
      match LaTeXLevels (LT w) level with
      | None => (Raise LookupError, Entry a e, w)
      | Some texLevel =>
          (Ok (PyStr path), Entry a e, lines_append (entry_line texLevel (name a)) w)
      end
  | Journal smart_journal a j => (Ok PyNone, self, w)
  | Journal cls a (mkJournal Entries Journals children _includes) =>
      let _texdir := os_path.join texdir [name a] in
      let a := set__texdir (Some _texdir) a in
      let w := world_print _texdir w in
      let made :=
        if negb (os_path_isdir (fs w) _texdir)
        then option_map (fun f => set_fs f w) (os_mkdir (fs w) _texdir)
        else Some w in
      match made with
      | None =>
          (Raise (OSError _texdir), Journal cls a (mkJournal Entries Journals children _includes), w)
      | Some w =>
          match LaTeXLevels (LT w) level with
          | None =>
              (Raise LookupError,
               Journal cls a (mkJournal Entries Journals children _includes), w)
          | Some texLevel =>
              let w := lines_append (journal_line texLevel (name a)) w in
              let _includes := Some (PyList []) in
              match children with
              | None =>
                  (Raise AttributeError,
                   Journal cls a (mkJournal Entries Journals children _includes), w)
              | Some cs =>
                  let '(r, cs', inc, w') :=
                    (fix loop (cs : list MJElement) (inc : option PyVal) (w : World)
                       {struct cs}
                       : result PyVal * list MJElement * option PyVal * World :=
                       match cs with
                       | [] => (Ok PyNone, [], inc, w)
                       | child :: rest =>
                           if binds (MakeLaTeX_parameters child) 2 ["level"]
                           then
                             match MakeLaTeX child _texdir (level + 1) w with
                             | (Ok v, child', w') =>
                                 let '(r, rest', inc', w'') := loop rest (Some v) w' in
                                 (r, child' :: rest', inc', w'')
                             | (Raise e, child', w') =>
                                 (Raise e, child' :: rest, inc, w')
                             | (OutOfFuel, child', w') =>
                                 (OutOfFuel, child' :: rest, inc, w')
                             end
                           else (Raise TypeError, child :: rest, inc, w)
                       end) cs _includes w in
                  (r, Journal cls a (mkJournal Entries Journals (Some cs') inc), w')
              end
          end
      end
  end.

(** A call [element.MakeLaTeX(LT, texdir, level=level)], as the export
    pass makes it on the journals of the document and on the children of
    a journal: a [TypeError] when the arguments do not bind. *)
Definition call_MakeLaTeX (self : MJElement) (texdir : string) (level : Z) (w : World)
  : result PyVal * MJElement * World :=
  if binds (MakeLaTeX_parameters self) 2 ["level"]
  then MakeLaTeX self texdir level w
  else (Raise TypeError, self, w).

(** The loop of [mjdoc.MakeLaTeX] over [self.Journals.values()]. *)
Fixpoint mjdoc_MakeLaTeX_loop (js : list (string * MJElement)) (texdir : string)
         (level : Z) (w : World)
  : result unit * list (string * MJElement) * World :=
  match js with
  | [] => (Ok tt, [], w)
  | (k, J) :: rest =>
      match call_MakeLaTeX J texdir level w with
      | (Ok _, J', w') =>
          let '(r, rest', w'') := mjdoc_MakeLaTeX_loop rest texdir level w' in
          (r, (k, J') :: rest', w'')
      | (Raise e, J', w') => (Raise e, (k, J') :: rest, w')
      | (OutOfFuel, J', w') => (OutOfFuel, (k, J') :: rest, w')
      end
  end.

(** [mjdoc.MakeLaTeX(self, LT, texdir, level)] *)
Definition mjdoc_MakeLaTeX (self : mjdoc) (texdir : string) (level : Z) (w : World)
  : result unit * mjdoc * World :=
  let self := set_doc__texdir (Some texdir) self in
  let '(r, js, w') := mjdoc_MakeLaTeX_loop (doc_Journals self) texdir level w in
  (r, set_doc_Journals js self, w').

End Elements.

(** ** A platform to run the model on *)

Module Sample.

(** Directories by name, and the index documents by path. *)
Record SampleFS : Type := mkFS {
  dirs : list string;
  indexes : list (string * Node)
}.

Definition isdir (f : SampleFS) (p : string) : bool := existsb (String.eqb p) (dirs f).

Definition mkdir (f : SampleFS) (p : string) : option SampleFS :=
  if isdir f p then None else Some (mkFS (p :: dirs f) (indexes f)).

Fixpoint lookup (k : string) (l : list (string * Node)) : option Node :=
  match l with
  | [] => None
  | (k', v) :: l' => if k' =? k then Some v else lookup k l'
  end.

(** A platform whose date parser accepts the call with the text alone
    and keeps the text, as a parser with its format built in would. *)
Definition lenient : Platform.
Proof.
  refine {|
    datetime := string;
    strptime := fun args => match args with
                            | [PyStr s] => inl s
                            | _ => inr BadCall
                            end;
    float := string;
    float_of_str := fun s => if s =? "" then None else Some s;
    FS := SampleFS;
    os_path_isdir := isdir;
    os_path_normpath := fun p => p;
    os_path_abspath := fun _ p => p;
    os_mkdir := mkdir;
    read_index := fun f p => lookup p (indexes f);
    os_mkdir_isdir := _
  |}.
  intros f p f'. unfold mkdir. destruct (isdir f p); [discriminate|].
  intros [= <-]. unfold isdir. simpl. now rewrite String.eqb_refl.
Defined.

Definition dates : list Node :=
  [Element "date" [] [Text "2014-03-01 10:00:00"];
   Element "created" [] [Text "2014-03-01 10:00:00"];
   Element "modified" [] [Text "2014-03-02 08:30:00"]].

(** The entry "Day One" of the scenario. *)
Definition day_one : Node :=
  Element "entry" [("id", "e1")]
    (Element "topic" [] [Text "Day One"]
     :: Element "content" [("id", "abc123"); ("type", "text/rtf")] []
     :: dates).

(** The journal "Personal" of the scenario. *)
Definition personal : Node :=
  Element "journal" [("id", "j1")]
    (Element "name" [] [Text "Personal"]
     :: Element "children" [] [day_one]
     :: dates).

Definition index_document : Node :=
  Document [Element "macjournalml" []
              [Element "bookcase" [] [Element "children" [] [personal]]]].

Definition disk : SampleFS :=
  mkFS ["/Users/me/Journal.mjdoc"; "/tmp/tex"]
       [("/Users/me/Journal.mjdoc/index.mjml.gz", index_document)].

End Sample.

(** ** Notions the properties are stated with *)

Section Notions.

Context {P : Platform}.

(** [x] is [e] or lies below it in the tree of children. *)
Inductive within : MJElement -> MJElement -> Prop :=
| within_self e : within e e
| within_child x cls a j cs c :
    children j = Some cs -> In c cs -> within x c ->
    within x (Journal cls a j).

(** [x] is an element of the document [d]. *)
Definition in_document (x : MJElement) (d : mjdoc) : Prop :=
  exists k T, In (k, T) (doc_Journals d) /\ within x T.

(** What construction establishes of an element built under the parent
    [Pa], and of every element below it. *)
Inductive built (Pa : MJObject) : MJElement -> Prop :=
| built_entry a e id type :
    Parent (base a) = Pa ->
    _keywords a = None ->
    dict_item (content e) "id" = Ok id ->
    dict_item (content e) "type" = Ok type ->
    filename e = id ++ snd (os_path.splitext type) ->
    _realpath (base a) = Some (os_path.join "Content" [filename e]) ->
    built Pa (Entry a e)
| built_journal cls a j :
    Parent (base a) = Pa ->
    _keywords a = None ->
    _realpath (base a) = None ->
    (forall cs c, children j = Some cs -> In c cs -> built (as_object a) c) ->
    built Pa (Journal cls a j).

(** A classifier whose elements are all built. *)
Definition builds (f : Node -> MJObject -> bool -> M stdout MJElement) : Prop :=
  forall node Pa v s e s', f node Pa v s = (Ok e, s') -> built Pa e.

End Notions.

(** ** The arity of [strptime] *)

(** [datetime.datetime.strptime(date_string, format)] takes exactly two
    arguments, both strings; any other call is a [TypeError] before any
    text is looked at.  [parse] is what it does with the two strings. *)
Definition python_strptime {D : Type} (parse : string -> string -> D + strptime_error)
           (args : list PyVal) : D + strptime_error :=
  match args with
  | [PyStr date_string; PyStr format] => parse date_string format
  | _ => inr BadCall
  end.

Module Sample_python.

(** The sample platform with the date parser of the standard library
    in place of the lenient one. *)
Definition python : Platform.
Proof.
  refine {|
    datetime := string;
    strptime := python_strptime (fun date_string _ => inl date_string);
    float := string;
    float_of_str := fun s => if s =? "" then None else Some s;
    FS := Sample.SampleFS;
    os_path_isdir := Sample.isdir;
    os_path_normpath := fun p => p;
    os_path_abspath := fun _ p => p;
    os_mkdir := Sample.mkdir;
    read_index := fun f p => Sample.lookup p (Sample.indexes f);
    os_mkdir_isdir := _
  |}.
  exact (@os_mkdir_isdir Sample.lenient).
Defined.

End Sample_python.

(** ** Keywords, as the specification words them *)

Section KeywordNotions.

Context {P : Platform}.


(** The texts of the nodes that have one. *)
Definition texts (nodes : list Node) : list string :=
  flat_map (fun n => match minidom.firstChild_wholeText n with
                     | Ok s => [s]
                     | _ => []
                     end) nodes.

(** Duplicates dropped, each word where it is first seen. *)
Fixpoint first_seen (words : list string) : list string :=
  match words with
  | [] => []
  | w :: ws => w :: filter (fun x => negb (x =? w)) (first_seen ws)
  end.


Definition no_element_below (tag : string) (n : Node) : bool :=
  negb (nonempty (minidom._get_elements_by_tagName_helper n tag [])).

Definition has_text (n : Node) : bool :=
  match minidom.firstChild_wholeText n with
  | Ok _ => true
  | _ => false
  end.



End KeywordNotions.

(** ** Classification, as the specification words it *)

(** The text of the [name] child of a node: of the first child element
    with that tag. *)
Definition child_name_text (xml : Node) : option string :=
  match filter (minidom.tag_matches "name") (minidom.childNodes xml) with
  | n :: _ =>
      match minidom.firstChild_wholeText n with
      | Ok s => Some s
      | _ => None
      end
  | [] => None
  end.

Definition recognized (nodeName : string) : bool :=
  (nodeName =? "smart_journal") || (nodeName =? "journal") || (nodeName =? "entry").

(** ** Heading records *)

Section Headings.

Context {P : Platform}.

(** A heading handed to the rendering collaborator. *)
Record heading : Type := mkHeading {
  h_level : Z;
  h_starred : bool;
  h_text : string
}.

(** The line that carries a heading record. *)
Definition heading_line (t : LaTeXTemplate) (h : heading) : option string :=
  match LaTeXLevels t (h_level h) with
  | Some texLevel =>
      Some (if h_starred h then entry_line texLevel (h_text h)
            else journal_line texLevel (h_text h))
  | None => None
  end.

End Headings.

Module Sample_trash.

(** A journal whose own [name] child reads "Trash" and comes after its
    [children] element, which holds the journal "Work". *)
Definition work : Node :=
  Element "journal" [("id", "j3")] (Element "name" [] [Text "Work"] :: Sample.dates).

Definition trash_after_children : Node :=
  Element "journal" [("id", "j2")]
    (Element "children" [] [work]
     :: Element "name" [] [Text "Trash"]
     :: Sample.dates).

(** The trash journal with its [name] first, holding the same child. *)
Definition trash : Node :=
  Element "journal" [("id", "j2")]
    (Element "name" [] [Text "Trash"]
     :: Element "children" [] [work]
     :: Sample.dates).

End Sample_trash.

Module Sample_run.

Definition location_ : string := "/Users/me/Journal.mjdoc".

(** Loading the sample document on the lenient platform. *)
Definition loaded : result (@mjdoc Sample.lenient) * stdout :=
  @mjdoc___init__ Sample.lenient 1 Sample.disk location_ false [] [].

Definition no_document : @mjdoc Sample.lenient :=
  mkDoc false "" "" "" "" "" (Document []) (Document []) (Document []) [] None.

(** The document it gives. *)
Definition document : @mjdoc Sample.lenient :=
  Eval vm_compute in
    match fst loaded with
    | Ok d => d
    | _ => no_document
    end.

(** Its journal "Personal" and the entry "Day One" of that journal. *)
Definition journal_personal : option (@MJElement Sample.lenient) :=
  Eval vm_compute in
    match doc_Journals document with
    | (_, J) :: _ => Some J
    | [] => None
    end.

Definition entry_day_one : option (@MJElement Sample.lenient) :=
  Eval vm_compute in
    match journal_personal with
    | Some (Journal _ _ j) =>
        match children j with
        | Some (E :: _) => Some E
        | _ => None
        end
    | _ => None
    end.

End Sample_run.

(** ** Exceptions of the classifier *)

(** An exception the classifier may let through: anything but a
    [NotImplementedError], or the one it raises for a tag it does not
    recognize. *)
Definition classifier_exception (e : exn) : Prop :=
  match e with
  | NotImplementedError _ =>
      exists nodeName, recognized nodeName = false /\ e = unknown_child_type nodeName
  | _ => True
  end.

(** A call raises only exceptions with the property. *)
Definition raises_only {S A} (Q : exn -> Prop) (c : M S A) : Prop :=
  forall s e s', c s = (Raise e, s') -> Q e.

Definition result_raises_only {A} (Q : exn -> Prop) (r : result A) : Prop :=
  forall e, r = Raise e -> Q e.

(** A classifier that raises only what the classifier may. *)
Definition raises_well {P : Platform}
           (f : Node -> MJObject -> bool -> M stdout MJElement) : Prop :=
  forall node Pa v, raises_only classifier_exception (f node Pa v).

(** The list the loop of [keywords] has gathered after [words], from
    [seen]. *)
Definition gather (seen words : list string) : list string :=
  fold_left (fun ks w => if existsb (String.eqb w) ks then ks else (ks ++ [w])%list)
            words seen.

Module Sample_keywords.


(** Heading names by depth, and a world to export into. *)
Definition levels (level : Z) : option string :=
  nth_error ["section"; "subsection"; "subsubsection"] (Z.to_nat level).

Definition world : @World Sample.lenient :=
  @mkWorld Sample.lenient (mkLT levels []) Sample.disk [].

End Sample_keywords.

(** ** Fuel *)

(** The depth of a markup tree: 1 for a node without children. *)
Fixpoint depth (n : Node) : nat :=
  match n with
  | Document cs => S (list_max (map depth cs))
  | Element _ _ cs => S (list_max (map depth cs))
  | _ => 1
  end.

(** A call that does not run out of fuel. *)
Definition has_fuel {S A} (c : M S A) : Prop :=
  forall s s', c s <> (OutOfFuel, s').

(** A classifier that has fuel for every node at least two levels below
    depth [d]: the children of a [children] element of a node of that
    depth. *)
Definition fuel_below {P : Platform} (d : nat)
           (f : Node -> MJObject -> bool -> M stdout MJElement) : Prop :=
  forall node Pa v, depth node + 2 <= d -> has_fuel (f node Pa v).

(** ** Names along the way up *)





(** ** The export pass, loop by loop *)

Section ExportNotions.

Context {P : Platform}.

(** The loop of [journal.MakeLaTeX] over [self.children], each child
    exported into the directory of the journal one level down;
    [inc] is [self._includes]. *)
Fixpoint MakeLaTeX_children (cs : list MJElement) (_texdir : string) (level : Z)
         (inc : option PyVal) (w : World)
  : result PyVal * list MJElement * option PyVal * World :=
  match cs with
  | [] => (Ok PyNone, [], inc, w)
  | child :: rest =>
      match call_MakeLaTeX child _texdir (level + 1) w with
      | (Ok v, child', w') =>
          let '(r, rest', inc', w'') := MakeLaTeX_children rest _texdir level (Some v) w' in
          (r, child' :: rest', inc', w'')
      | (Raise e, child', w') => (Raise e, child' :: rest, inc, w')
      | (OutOfFuel, child', w') => (OutOfFuel, child' :: rest, inc, w')
      end
  end.

(** The directory of a journal, made when it is not there. *)
Definition made_directory (_texdir : string) (w : World) : option World :=
  if negb (os_path_isdir (fs w) _texdir)
  then option_map (fun f => set_fs f w) (os_mkdir (fs w) _texdir)
  else Some w.

(** An element without what the export pass assigns. *)
Fixpoint forget_export (self : MJElement) : MJElement :=
  match self with
  | Entry a e => Entry (set__texdir None a) e
  | Journal cls a j =>
      Journal cls (set__texdir None a)
        (mkJournal (Entries j) (Journals j)
           (match children j with
            | Some cs => Some (map forget_export cs)
            | None => None
            end)
           None)
  end.

(** A tree the pass can walk: no smart journal in it, and every journal
    with its children assigned. *)
Fixpoint exportable (self : MJElement) : bool :=
  match self with
  | Entry _ _ => true
  | Journal smart_journal _ _ => false
  | Journal _ _ j =>
      match children j with
      | Some cs => forallb exportable cs
      | None => false
      end
  end.

(** The headings of a tree from [level] on, each journal before its
    children, the children in order. *)
Fixpoint headings (level : Z) (self : MJElement) : list heading :=
  match self with
  | Entry a _ => [mkHeading level true (name a)]
  | Journal smart_journal _ _ => []
  | Journal _ a j =>
      mkHeading level false (name a)
      :: match children j with
         | Some cs => flat_map (headings (level + 1)) cs
         | None => []
         end
  end.

(** The directories of the journals of a tree exported into [texdir], in
    the same order. *)
Fixpoint directories (texdir : string) (self : MJElement) : list string :=
  match self with
  | Entry _ _ => []
  | Journal smart_journal _ _ => []
  | Journal _ a j =>
      os_path.join texdir [name a]
      :: match children j with
         | Some cs => flat_map (directories (os_path.join texdir [name a])) cs
         | None => []
         end
  end.

(** The lines of the headings the table has a name for. *)
Definition rendered (t : LaTeXTemplate) (hs : list heading) : list string :=
  flat_map (fun h => match heading_line t h with
                     | Some line => [line]
                     | None => []
                     end) hs.

(** The file system after each directory of the list that is not there
    has been made, in order; [None] when one cannot be made. *)
Fixpoint make_each (f : FS) (ps : list string) : option FS :=
  match ps with
  | [] => Some f
  | p :: ps' =>
      if os_path_isdir f p then make_each f ps'
      else match os_mkdir f p with
           | Some f' => make_each f' ps'
           | None => None
           end
  end.

End ExportNotions.

(** ** What an export leaves *)

Section ExportOutcome.

Context {P : Platform}.

(** What [MakeLaTeX] returns where it returns: the path of an entry in
    the directory it is given, [None] for a journal. *)
Definition returned (texdir : string) (self : MJElement) : PyVal :=
  match self with
  | Entry a _ => PyStr (os_path.join texdir [name a])
  | Journal _ _ _ => PyNone
  end.

(** [l] is a beginning of [full]. *)
Definition initial {A} (l full : list A) : Prop := exists rest, full = (l ++ rest)%list.

(** The table has a name for the level of the heading. *)
Definition renders (t : LaTeXTemplate) (h : heading) : Prop := heading_line t h <> None.

(** What the call [self.MakeLaTeX(LT, texdir, level=level)] made in [w]
    leaves, as [r], [self'] and [w'].  Whatever the result: the table is
    the same, the element differs in nothing but what the pass assigns,
    and the accumulator and the output have gained a beginning of the
    headings and of the directories of the tree.  Where it returns: they
    have gained all of them, the tree is one the pass can walk, each
    directory was there or was made, and the value is that of the
    element. *)
Definition export_outcome (self : MJElement) (texdir : string) (level : Z) (w : World)
           (r : result PyVal) (self' : MJElement) (w' : World) : Prop :=
  LaTeXLevels (LT w') = LaTeXLevels (LT w)
  /\ forget_export self' = forget_export self
  /\ (exists added printed,
         lines (LT w') = (lines (LT w) ++ added)%list
         /\ out w' = (out w ++ printed)%list
         /\ initial added (rendered (LT w) (headings level self))
         /\ initial printed (directories texdir self))
  /\ forall v, r = Ok v ->
       lines (LT w') = (lines (LT w) ++ rendered (LT w) (headings level self))%list
       /\ out w' = (out w ++ directories texdir self)%list
       /\ Forall (renders (LT w)) (headings level self)
       /\ exportable self = true
       /\ make_each (fs w) (directories texdir self) = Some (fs w')
       /\ v = returned texdir self.

End ExportOutcome.

(** ** The export of a document *)

Section DocumentExport.

Context {P : Platform}.

(** The headings and the directories of the journals of a document, in
    the order of its [Journals]. *)
Definition doc_headings (level : Z) (d : mjdoc) : list heading :=
  flat_map (fun kJ => headings level (snd kJ)) (doc_Journals d).

Definition doc_directories (texdir : string) (d : mjdoc) : list string :=
  flat_map (fun kJ => directories texdir (snd kJ)) (doc_Journals d).

Definition doc_exportable (d : mjdoc) : bool :=
  forallb (fun kJ => exportable (snd kJ)) (doc_Journals d).

(** A document without what the export pass assigns. *)
Definition doc_forget_export (d : mjdoc) : mjdoc :=
  set_doc__texdir None
    (set_doc_Journals (map (fun kJ => (fst kJ, forget_export (snd kJ))) (doc_Journals d)) d).

End DocumentExport.

(** The directory [MakeLaTeX] assigns to [self._texdir] when it is
    handed [texdir]: of an entry the directory itself, of a journal its
    own directory in it. *)
Definition assigned__texdir {P : Platform} (texdir : string) (self : MJElement) : string :=
  match self with
  | Entry _ _ => texdir
  | Journal _ a _ => os_path.join texdir [name a]
  end.

(** ** What the constructors make of the markup *)

Section ConstructionNotions.

Context {P : Platform}.










End ConstructionNotions.

(** [xml.getElementsByTagName(tag)[0]] *)
Definition first_element (xml : Node) (tag : string) : result Node :=
  let? elements := minidom.getElementsByTagName xml tag in
  item0 elements.

Module Sample_nested.

(** An entry whose keywords lie at two depths of its template. *)
Definition grouped : Node :=
  Element "entry" [("id", "e3")]
    (Element "topic" [] [Text "Day Three"]
     :: Element "keywords" []
          [Element "group" [] [Element "keyword" [] [Text "deep"]];
           Element "keyword" [] [Text "top"];
           Element "keyword" [] [Text "deep"]]
     :: Element "content" [("id", "ghi789"); ("type", "public.rtf")] []
     :: Sample.dates).

(** An entry whose second keyword is empty. *)
Definition broken : Node :=
  Element "entry" [("id", "e4")]
    (Element "topic" [] [Text "Day Four"]
     :: Element "keywords" []
          [Element "keyword" [] [Text "work"];
           Element "keyword" [] [];
           Element "keyword" [] [Text "home"]]
     :: Element "content" [("id", "jkl012"); ("type", "public.rtf")] []
     :: Sample.dates).

End Sample_nested.

(** ** The hierarchy listing *)

Section Hierarchy.

Context {P : Platform}.











End Hierarchy.

Module Sample_trashed.

(** A document with the journal "Personal" and the trash journal. *)
Definition index_document : Node :=
  Document [Element "macjournalml" []
              [Element "bookcase" []
                 [Element "children" [] [Sample.personal; Sample_trash.trash]]]].

Definition location_ : string := "/Users/me/Trashed.mjdoc".

Definition disk : Sample.SampleFS :=
  Sample.mkFS [location_] [("/Users/me/Trashed.mjdoc/index.mjml.gz", index_document)].

Definition document : @mjdoc Sample.lenient :=
  Eval vm_compute in
    match fst (@mjdoc___init__ Sample.lenient 1 disk location_ false [] []) with
    | Ok d => d
    | _ => Sample_run.no_document
    end.


End Sample_trashed.

Module Sample_located.


End Sample_located.

(** * Properties *)

Example splitext_uti : os_path.splitext "public.rtf" = ("public", ".rtf").
Proof. reflexivity. Qed.

Example splitext_mime : os_path.splitext "text/rtf" = ("text/rtf", "").
Proof. reflexivity. Qed.

Example splitext_hidden : os_path.splitext "dir.d/.profile" = ("dir.d/.profile", "").
Proof. reflexivity. Qed.

Example join_abs : os_path.join "/doc" ["Content"; "abc123"] = "/doc/Content/abc123".
Proof. reflexivity. Qed.

Example join_empty : os_path.join "" ["Personal"] = "Personal".
Proof. reflexivity. Qed.

Example join_restart : os_path.join "/a" ["b"; "/c"; "d"] = "/c/d".
Proof. reflexivity. Qed.

Example join_after_sep : os_path.join "/a/" ["b"; ""] = "/a/b/".
Proof. reflexivity. Qed.

Example splitext_last_dot : os_path.splitext "com.apple.rtfd" = ("com.apple", ".rtfd").
Proof. reflexivity. Qed.

Example wholeText_joins :
  minidom.firstChild_wholeText
    (Element "name" [] [Text "Tr"; CDATASection "ash"; Comment "c"; Text "x"])
  = Ok "Trash".
Proof. reflexivity. Qed.

Example binds_export_call :
  binds [("LT", false); ("texdir", false); ("level", true)] 2 ["level"] = true
  /\ binds [("texdir", false); ("level", true)] 2 ["level"] = false
  /\ binds [("texdir", false); ("level", true)] 1 ["level"] = true
  /\ binds [("texdir", false); ("level", true)] 1 [] = true
  /\ binds [("texdir", false); ("level", true)] 0 ["level"] = false
  /\ binds [("texdir", false); ("level", true)] 3 [] = false.
Proof. repeat split. Qed.

Example getElementsByTagName_order :
  minidom.getElementsByTagName
    (Element "a" [] [Element "b" [] [Element "c" [] []]; Text "t"; Element "c" [("k", "v")] []])
    "c"
  = Ok [Element "c" [] []; Element "c" [("k", "v")] []].
Proof. reflexivity. Qed.

(** ** Reasoning about calls *)

Lemma bind_Ok {S A B} (c : M S A) (k : A -> M S B) s b s' :
  bind c k s = (Ok b, s') ->
  exists a s1, c s = (Ok a, s1) /\ k a s1 = (Ok b, s').
Proof.
  unfold bind. destruct (c s) as [[a| |] s1]; try discriminate.
  intros H. now exists a, s1.
Qed.

Lemma lift_Ok {S A} (r : result A) (s : S) a s' :
  lift r s = (Ok a, s') -> r = Ok a /\ s' = s.
Proof. unfold lift. now intros [= -> ->]. Qed.

Lemma ret_Ok {S A} (x : A) (s : S) a s' :
  ret x s = (Ok a, s') -> a = x /\ s' = s.
Proof. unfold ret. now intros [= -> ->]. Qed.

Lemma rbind_Ok {A B} (r : result A) (k : A -> result B) b :
  rbind r k = Ok b -> exists a, r = Ok a /\ k a = Ok b.
Proof. destruct r; simpl; try discriminate. intros H. now exists a. Qed.

(** A loop keeps what each round keeps. *)
Lemma for_each_invariant {S A B} (I : B -> Prop) (body : B -> A -> M S B) :
  forall (xs : list A) acc s r s',
    I acc ->
    (forall acc x s acc' s', I acc -> In x xs -> body acc x s = (Ok acc', s') -> I acc') ->
    for_each xs acc body s = (Ok r, s') ->
    I r.
Proof.
  induction xs as [|x xs IH]; simpl; intros acc s r s' Hacc Hbody H.
  - apply ret_Ok in H as [-> _]. exact Hacc.
  - apply bind_Ok in H as (acc1 & s1 & H1 & H2).
    eapply IH; [ | | exact H2].
    + eapply Hbody; eauto.
    + intros; eapply Hbody; eauto.
Qed.

Ltac inv_call H :=
  repeat match type of H with
    | bind _ _ _ = (Ok _, _) =>
        let a := fresh "v" in let s := fresh "s" in
        let H1 := fresh "Hc" in
        apply bind_Ok in H as (a & s & H1 & H)
    | rbind _ _ = Ok _ =>
        let a := fresh "v" in let H1 := fresh "Hr" in
        apply rbind_Ok in H as (a & H1 & H)
    end.

(** ** Markup trees *)

(** Induction on a markup tree, with the property known of the children. *)
Lemma Node_children_ind (Q : Node -> Prop) :
  (forall cs, Forall Q cs -> Q (Document cs)) ->
  (forall t a cs, Forall Q cs -> Q (Element t a cs)) ->
  (forall d, Q (Text d)) ->
  (forall d, Q (CDATASection d)) ->
  (forall d, Q (Comment d)) ->
  (forall t d, Q (ProcessingInstruction t d)) ->
  forall n, Q n.
Proof.
  intros HD HE HT HC HM HP. fix IH 1. intros [cs|t a cs|d|d|d|t d].
  - apply HD. induction cs as [|c cs IHcs]; constructor; [apply IH | exact IHcs].
  - apply HE. induction cs as [|c cs IHcs]; constructor; [apply IH | exact IHcs].
  - apply HT.
  - apply HC.
  - apply HM.
  - apply HP.
Qed.

(** The helper appends to its accumulator. *)
Lemma _get_elements_by_tagName_helper_app name n :
  forall rc,
    minidom._get_elements_by_tagName_helper n name rc
    = (rc ++ minidom._get_elements_by_tagName_helper n name [])%list.
Proof.
  induction n as [cs IH|t a cs IH|d|d|d|t d] using Node_children_ind; intros rc;
    simpl; try now rewrite app_nil_r.
  all: revert rc; induction IH as [|c cs Hc _ IHcs]; intros rc;
    [now rewrite app_nil_r|].
  all: rewrite IHcs; rewrite (IHcs (minidom._get_elements_by_tagName_helper c name _));
    rewrite Hc;
    rewrite (Hc (if minidom.tag_matches name c then _ else _));
    destruct (minidom.tag_matches name c); simpl;
    now rewrite <- ?app_assoc.
Qed.

(** The search below an element, child by child. *)
Lemma _get_elements_by_tagName_helper_children name t a cs :
  forall rc,
    minidom._get_elements_by_tagName_helper (Element t a cs) name rc
    = (rc ++ flat_map (fun c => (if minidom.tag_matches name c then [c] else [])
                                ++ minidom._get_elements_by_tagName_helper c name []) cs)%list.
Proof.
  induction cs as [|c cs IH]; intros rc.
  - simpl. now rewrite app_nil_r.
  - change (minidom._get_elements_by_tagName_helper (Element t a (c :: cs)) name rc)
      with (minidom._get_elements_by_tagName_helper (Element t a cs) name
              (minidom._get_elements_by_tagName_helper c name
                 (if minidom.tag_matches name c then (rc ++ [c])%list else rc))).
    rewrite IH, (@_get_elements_by_tagName_helper_app name c). simpl.
    destruct (minidom.tag_matches name c); simpl; now rewrite <- !app_assoc.
Qed.

Lemma depth_pos n : 1 <= depth n.
Proof. destruct n; simpl; auto using le_n_S, Nat.le_0_l. Qed.

Lemma depth_child c n : In c (minidom.childNodes n) -> depth c < depth n.
Proof.
  assert (H : forall cs, In c cs -> depth c <= list_max (map depth cs)).
  { intros cs Hin. pose proof (proj1 (list_max_le (map depth cs) _) (Nat.le_refl _)) as Hall.
    rewrite Forall_forall in Hall. apply Hall. now apply in_map. }
  destruct n; simpl; try tauto; intros Hin; apply H in Hin; now apply Nat.lt_succ_r.
Qed.

(** What the search returns lies below the node. *)
Lemma _get_elements_by_tagName_helper_In name x n :
  forall rc,
    In x (minidom._get_elements_by_tagName_helper n name rc) ->
    In x rc \/ exists c, In c (minidom.childNodes n)
                         /\ (x = c \/ In x (minidom._get_elements_by_tagName_helper c name [])).
Proof.
  assert (Hloop : forall t a cs rc,
             In x (minidom._get_elements_by_tagName_helper (Element t a cs) name rc) ->
             In x rc \/ exists c, In c cs
                                  /\ (x = c \/ In x (minidom._get_elements_by_tagName_helper c name []))).
  { intros t a cs. induction cs as [|c cs IH]; intros rc Hin.
    - now left.
    - change (minidom._get_elements_by_tagName_helper (Element t a (c :: cs)) name rc)
        with (minidom._get_elements_by_tagName_helper (Element t a cs) name
                (minidom._get_elements_by_tagName_helper c name
                   (if minidom.tag_matches name c then (rc ++ [c])%list else rc))) in Hin.
      apply IH in Hin as [Hin | (c' & Hc' & Hx)].
      + rewrite (@_get_elements_by_tagName_helper_app name c) in Hin.
        apply in_app_or in Hin as [Hin | Hin].
        * destruct (minidom.tag_matches name c).
          -- apply in_app_or in Hin as [Hin | [Hcx | []]]; [now left|].
             right. exists c. split; [now left | left; now symmetry].
          -- now left.
        * right. exists c. split; [now left | now right].
      + right. exists c'. split; [now right | exact Hx]. }
  intros rc. destruct n as [cs|t a cs|d|d|d|t d]; simpl minidom.childNodes;
    try (intros Hin; now left).
  - change (minidom._get_elements_by_tagName_helper (Document cs) name rc)
      with (minidom._get_elements_by_tagName_helper (Element "" [] cs) name rc).
    apply Hloop.
  - apply Hloop.
Qed.

Lemma _get_elements_by_tagName_helper_depth name n :
  forall x, In x (minidom._get_elements_by_tagName_helper n name []) -> depth x < depth n.
Proof.
  induction n as [cs IH|t a cs IH|d|d|d|t d] using Node_children_ind; intros x Hin;
    try (simpl in Hin; contradiction).
  all: apply _get_elements_by_tagName_helper_In in Hin as [[] | (c & Hc & Hx)].
  all: pose proof (depth_child c _ Hc) as Hlt; simpl minidom.childNodes in Hc.
  all: destruct Hx as [-> | Hx]; [exact Hlt|].
  all: rewrite Forall_forall in IH; specialize (IH c Hc x Hx).
  all: eapply Nat.lt_trans; eauto.
Qed.

Lemma getElementsByTagName_depth n name l x :
  minidom.getElementsByTagName n name = Ok l -> In x l -> depth x < depth n.
Proof.
  unfold minidom.getElementsByTagName. intros H Hin.
  apply (@_get_elements_by_tagName_helper_depth name).
  destruct n; try discriminate; congruence.
Qed.

(** ** What construction establishes *)

Section Construction.

Context {P : Platform}.

Lemma _MJElement___init___attributes node Pa v b :
  _MJElement___init__ node Pa v = Ok b ->
  node = xml b /\ Parent b = Pa /\ verbose b = v /\ _realpath b = Some "".
Proof.
  unfold _MJElement___init__. intros H. inv_call H.
  injection H as <-. simpl. auto.
Qed.

Lemma entry___init___built xml Pa v kw E :
  entry___init__ xml Pa v kw = Ok E -> built Pa E.
Proof.
  unfold entry___init__. intros H. inv_call H.
  injection H as <-.
  apply _MJElement___init___attributes in Hr as (_ & HP & _ & _).
  eapply built_entry; simpl; eauto.
Qed.

Lemma journal__parseContents_children recur a j kw s a' j' s' :
  builds recur ->
  journal__parseContents recur a j kw s = (Ok (a', j'), s') ->
  as_object a' = as_object a /\ base a' = base a /\ _keywords a' = _keywords a /\
  forall cs c, children j' = Some cs -> In c cs -> built (as_object a) c.
Proof.
  intros Hrec H. unfold journal__parseContents in H.
  apply bind_Ok in H as (cs0 & s0 & _ & H).
  destruct cs0 as [|children0 rest].
  - apply ret_Ok in H as [[= Ha Hj] _]. subst a' j'. simpl. repeat split; auto.
    intros cs c [= <-] [].
  - apply bind_Ok in H as (j1 & s1 & Hloop & H).
    assert (Hj1 : forall cs c, children j1 = Some cs -> In c cs -> built (as_object a) c).
    { eapply for_each_invariant
        with (I := fun j => forall cs c, children j = Some cs -> In c cs ->
                                         built (as_object a) c);
        [ | | exact Hloop].
      - simpl. intros cs c [= <-] [].
      - intros acc x sa acc' sa' Hacc _ Hbody. apply bind_Ok in Hbody as (child & sb & Hchild & Hbody).
        assert (Hb : built (as_object a) child).
        { unfold call__childFactory in Hchild.
          destruct (nonempty kw); [discriminate|]. eapply Hrec; eauto. }
        assert (Hcs : forall cs c,
                   option_map (fun cs => (cs ++ [child])%list) (children acc) = Some cs ->
                   In c cs -> built (as_object a) c).
        { intros cs c Hcs Hin. destruct (children acc) as [cs1|] eqn:E; [|discriminate].
          injection Hcs as <-. apply in_app_or in Hin as [Hin|[<-|[]]]; eauto. }
        destruct (isinstance_journal child);
          apply ret_Ok in Hbody as [-> _]; simpl; exact Hcs. }
    apply bind_Ok in H as (proto & s2 & _ & H).
    destruct proto as [|p0 ?].
    + apply ret_Ok in H as [[= Ha Hj] _]. subst a' j'. auto.
    + apply bind_Ok in H as (ks & s3 & _ & H).
      destruct ks as [|k0 ?]; apply ret_Ok in H as [[= Ha Hj] _]; subst a' j'; auto.
Qed.

Lemma _parseContents_children recur cls a j kw s a' j' s' :
  builds recur ->
  children j = None ->
  _parseContents recur cls a j kw s = (Ok (a', j'), s') ->
  as_object a' = as_object a /\ base a' = base a /\ _keywords a' = _keywords a /\
  forall cs c, children j' = Some cs -> In c cs -> built (as_object a) c.
Proof.
  intros Hrec Hnone H. destruct cls; simpl in H;
    try (eapply journal__parseContents_children; eassumption).
  unfold TrashJournal__parseContents in H.
  apply bind_Ok in H as (? & ? & _ & H). apply ret_Ok in H as [[= Ha Hj] _].
  subst a' j'. repeat split; auto. intros cs c Hcs. congruence.
Qed.

Lemma journal___init___built recur cls xml Pa v kw s e s' :
  builds recur ->
  journal___init__ recur cls xml Pa v kw s = (Ok e, s') ->
  built Pa e.
Proof.
  intros Hrec H. unfold journal___init__ in H.
  apply bind_Ok in H as (b & s1 & Hb & H). apply lift_Ok in Hb as [Hb _].
  apply _MJElement___init___attributes in Hb as (_ & HP & _ & _).
  apply bind_Ok in H as (nm & s2 & _ & H).
  apply bind_Ok in H as (? & s3 & _ & H).
  apply bind_Ok in H as ([a' j'] & s4 & Hparse & H).
  apply ret_Ok in H as [-> _]. simpl.
  apply _parseContents_children in Hparse as (Hobj & Hbase & Hkw & Hcs); auto.
  apply built_journal.
  - now rewrite Hbase.
  - now rewrite Hkw.
  - now rewrite Hbase.
  - intros cs c H1 H2. rewrite Hobj. eauto.
Qed.

Lemma _childFactory_body_built recur :
  builds recur -> builds (_childFactory_body recur).
Proof.
  intros Hrec xml Pa v s e s' H. unfold _childFactory_body in H.
  destruct (minidom.nodeName xml =? "smart_journal").
  { apply bind_Ok in H as (? & ? & _ & H).
    eapply journal___init___built; eauto. }
  destruct (minidom.nodeName xml =? "journal").
  { apply bind_Ok in H as (? & ? & _ & H).
    apply bind_Ok in H as (nm & ? & _ & H).
    destruct (nm =? "Trash"); eapply journal___init___built; eauto. }
  destruct (minidom.nodeName xml =? "entry").
  { apply lift_Ok in H as [H _]. eapply entry___init___built; eauto. }
  discriminate.
Qed.

(** Every element the classifier returns is built, whatever the fuel. *)
Lemma _childFactory_built fuel : builds (_childFactory fuel).
Proof.
  induction fuel as [|fuel IH]; intros xml Pa v s e s' H; simpl in H.
  - eapply _childFactory_body_built; [|exact H].
    intros ? ? ? ? ? ? H'. discriminate.
  - eapply _childFactory_body_built; [|exact H]. exact IH.
Qed.

(** The journals of a constructed document are built under it, and its
    relative path is empty. *)
Lemma mjdoc___init___built fuel f path v kw s d s' :
  mjdoc___init__ fuel f path v kw s = (Ok d, s') ->
  rel_path d = "" /\ abs_path d = os_path_abspath f path /\
  forall k T, In (k, T) (doc_Journals d) -> built (mjdoc_object d) T.
Proof.
  unfold mjdoc___init__. destruct (negb (os_path_isdir f path)); [discriminate|].
  intros H. inv_call H.
  enough (Hinv : rel_path d = "" /\ abs_path d = os_path_abspath f path /\
                 forall k T, In (k, T) (doc_Journals d) ->
                             built (O_mjdoc (os_path_abspath f path) "") T).
  { destruct Hinv as (Hrel & Habs & Hjs). unfold mjdoc_object.
    rewrite Hrel, Habs. auto. }
  eapply for_each_invariant
    with (I := fun d => rel_path d = "" /\ abs_path d = os_path_abspath f path /\
                        forall k T, In (k, T) (doc_Journals d) ->
                                    built (O_mjdoc (os_path_abspath f path) "") T);
    [ | | exact H].
  - simpl. repeat split; auto. intros k T [].
  - intros acc x sa acc' sa' (Hrel & Habs & Hacc) _ Hbody.
    apply bind_Ok in Hbody as (J & sb & HJ & Hbody).
    apply ret_Ok in Hbody as [-> _]. simpl. repeat split; auto.
    assert (HbJ : built (O_mjdoc (os_path_abspath f path) "") J).
    { unfold call__childFactory in HJ. destruct (nonempty kw); [discriminate|].
      apply _childFactory_built in HJ. unfold mjdoc_object in HJ.
      now rewrite Hrel, Habs in HJ. }
    clear HJ. revert Hacc. generalize (doc_Journals acc). intros js Hjs k T Hin.
    induction js as [|[k' T'] js IHjs]; simpl in Hin.
    + destruct Hin as [[= _ <-]|[]]. exact HbJ.
    + destruct (k' =? name (attrs J)).
      * destruct Hin as [[= _ <-]|Hin]; [exact HbJ|]. eapply Hjs. right. eauto.
      * destruct Hin as [[= <- <-]|Hin]; [eapply Hjs; left; eauto|].
        apply IHjs; auto. intros; eapply Hjs; right; eauto.
Qed.

End Construction.

(** ** Fuel is enough *)

Section Fuel.

Context {S : Type}.

Lemma has_fuel_bind {A B} (c : M S A) (k : A -> M S B) :
  has_fuel c -> (forall a, has_fuel (k a)) -> has_fuel (bind c k).
Proof.
  intros Hc Hk s s'. unfold bind.
  destruct (c s) as [[a|e|] s1] eqn:E.
  - apply Hk.
  - discriminate.
  - now apply Hc in E.
Qed.

Lemma has_fuel_lift {A} (r : result A) : r <> OutOfFuel -> has_fuel (@lift S A r).
Proof. intros Hr s s' [= -> _]. now apply Hr. Qed.

Lemma has_fuel_ret {A} (a : A) : has_fuel (@ret S A a).
Proof. intros s s'. discriminate. Qed.

Lemma has_fuel_raise {A} e : has_fuel (@raise S A e).
Proof. intros s s'. discriminate. Qed.

Lemma has_fuel_modify (f : S -> S) : has_fuel (modify f).
Proof. intros s s'. discriminate. Qed.

Lemma has_fuel_for_each {A B} (body : B -> A -> M S B) (xs : list A) :
  (forall acc x, In x xs -> has_fuel (body acc x)) ->
  forall acc, has_fuel (for_each xs acc body).
Proof.
  induction xs as [|x xs IH]; intros Hbody acc; simpl.
  - apply has_fuel_ret.
  - apply has_fuel_bind; [apply Hbody; now left|].
    intros acc'. apply IH. intros; apply Hbody; now right.
Qed.

Lemma rbind_fuel {A B} (r : result A) (k : A -> result B) :
  r <> OutOfFuel -> (forall a, k a <> OutOfFuel) -> rbind r k <> OutOfFuel.
Proof. intros Hr Hk. destruct r; simpl; [apply Hk | discriminate | now destruct Hr]. Qed.

End Fuel.

Lemma has_fuel_bind_result {S A B} (c : M S A) (k : A -> M S B) :
  has_fuel c -> (forall a s s1, c s = (Ok a, s1) -> has_fuel (k a)) ->
  has_fuel (bind c k).
Proof.
  intros Hc Hk s s'. unfold bind.
  destruct (c s) as [[a|e|] s1] eqn:E.
  - eapply Hk; eauto.
  - discriminate.
  - now apply Hc in E.
Qed.

Create HintDb fuel.

Section FuelOfConstruction.

Context {P : Platform}.

Ltac fueled :=
  repeat match goal with
    | |- rbind _ _ <> OutOfFuel => apply rbind_fuel; [|intros ?]
    | |- Ok _ <> OutOfFuel => discriminate
    | |- Raise _ <> OutOfFuel => discriminate
    | |- match ?x with _ => _ end <> OutOfFuel => destruct x
    | |- _ => solve [auto with fuel]
    end.

Lemma item0_fuel {A} (l : list A) : item0 l <> OutOfFuel.
Proof. unfold item0. fueled. Qed.

Lemma firstChild_wholeText_fuel n : minidom.firstChild_wholeText n <> OutOfFuel.
Proof. unfold minidom.firstChild_wholeText. fueled. Qed.

Lemma getElementsByTagName_fuel n t : minidom.getElementsByTagName n t <> OutOfFuel.
Proof. unfold minidom.getElementsByTagName. fueled. Qed.

Lemma getNamedItem_value_fuel n k : minidom.getNamedItem_value n k <> OutOfFuel.
Proof. unfold minidom.getNamedItem_value. fueled. Qed.

Hint Resolve item0_fuel firstChild_wholeText_fuel getElementsByTagName_fuel
     getNamedItem_value_fuel : fuel.

Lemma first_text_fuel n t : first_text n t <> OutOfFuel.
Proof. unfold first_text. fueled. Qed.

Lemma date_attribute_fuel cs attr : date_attribute cs attr <> OutOfFuel.
Proof. unfold date_attribute, minidom.firstChild_nodeValue. fueled. Qed.

Hint Resolve first_text_fuel date_attribute_fuel : fuel.

Lemma _MJElement___init___fuel node Pa v : _MJElement___init__ node Pa v <> OutOfFuel.
Proof. unfold _MJElement___init__. fueled. Qed.

Hint Resolve _MJElement___init___fuel : fuel.

Lemma entry___init___fuel node Pa v kw : entry___init__ node Pa v kw <> OutOfFuel.
Proof. unfold entry___init__, minidom.attributes_items, dict_item. fueled. Qed.

Lemma journal___init___fuel recur cls node Pa v kw :
  fuel_below (depth node) recur ->
  has_fuel (journal___init__ recur cls node Pa v kw).
Proof.
  intros Hrec. unfold journal___init__.
  apply has_fuel_bind_result; [apply has_fuel_lift; auto with fuel|].
  intros b s0 s1 Hb. apply lift_Ok in Hb as [Hb _].
  apply _MJElement___init___attributes in Hb as (Hxml & _).
  apply has_fuel_bind; [apply has_fuel_lift; auto with fuel | intros nm].
  apply has_fuel_bind.
  { destruct v; [|apply has_fuel_ret]. destruct (FullName _); apply has_fuel_modify. }
  intros _. apply has_fuel_bind; [|intros ?; apply has_fuel_ret].
  destruct cls; cbn [_parseContents].
  3: { unfold TrashJournal__parseContents.
       apply has_fuel_bind; [apply has_fuel_modify | intros ?; apply has_fuel_ret]. }
  all: unfold journal__parseContents; cbn [base set_base set__realpath xml];
    rewrite <- Hxml;
    (apply has_fuel_bind_result; [apply has_fuel_lift; auto with fuel|]);
    intros cs s2 s3 Hcs; apply lift_Ok in Hcs as [Hcs _];
    (destruct cs as [|c0 cs]; [apply has_fuel_ret|]);
    (apply has_fuel_bind;
     [ apply has_fuel_for_each; intros acc x Hx;
       apply has_fuel_bind;
       [ unfold call__childFactory; destruct (nonempty kw);
         [ apply has_fuel_raise
         | apply Hrec;
           pose proof (getElementsByTagName_depth _ _ c0 Hcs (or_introl eq_refl));
           pose proof (depth_child _ _ Hx); lia ]
       | intros child; destruct (isinstance_journal child); apply has_fuel_ret ]
     | intros j1 ]);
    (apply has_fuel_bind; [apply has_fuel_lift; auto with fuel | intros ps]);
    (destruct ps as [|p0 ?]; [apply has_fuel_ret|]);
    (apply has_fuel_bind; [apply has_fuel_lift; auto with fuel | intros ks]);
    destruct ks; apply has_fuel_ret.
Qed.

Lemma _childFactory_body_fuel recur node Pa v :
  fuel_below (depth node) recur ->
  has_fuel (_childFactory_body recur node Pa v).
Proof.
  intros Hrec. unfold _childFactory_body.
  assert (Hverbose : forall label,
             has_fuel (if v
                       then bind (lift (minidom.getNamedItem_value node "id"))
                                 (fun id => print (label ++ id))
                       else ret tt)).
  { intros label. destruct v; [|apply has_fuel_ret].
    apply has_fuel_bind;
      [apply has_fuel_lift; auto with fuel | intros ?; apply has_fuel_modify]. }
  destruct (minidom.nodeName node =? "smart_journal").
  { apply has_fuel_bind; [apply (Hverbose ("Smart Journal" ++ newline ++ tab ++ "id="))|].
    intros _. now apply journal___init___fuel. }
  destruct (minidom.nodeName node =? "journal").
  { apply has_fuel_bind; [apply (Hverbose ("Journal" ++ newline ++ tab ++ "id="))|].
    intros _. apply has_fuel_bind; [apply has_fuel_lift; auto with fuel | intros nm].
    destruct (nm =? "Trash"); now apply journal___init___fuel. }
  destruct (minidom.nodeName node =? "entry").
  { apply has_fuel_lift, entry___init___fuel. }
  apply has_fuel_raise.
Qed.

(** The classifier does not run out of fuel on a node of depth at most
    the fuel plus two: it returns an element or raises. *)
Lemma _childFactory_fuel fuel :
  forall node Pa v, depth node <= fuel + 2 -> has_fuel (_childFactory fuel node Pa v).
Proof.
  induction fuel as [|fuel IH]; intros node Pa v Hd; simpl;
    apply _childFactory_body_fuel; intros node' Pa' v' Hd'.
  - exfalso. pose proof (depth_pos node') as Hpos. lia.
  - apply IH. lia.
Qed.

(** Loading a document does not run out of fuel when the fuel, plus two,
    covers the depth of its index. *)
Lemma mjdoc___init___fuel fuel f path v kw :
  (forall doc, read_index f (os_path.join (os_path_normpath path) ["index.mjml.gz"])
               = Some doc -> depth doc <= fuel + 2) ->
  has_fuel (mjdoc___init__ fuel f path v kw).
Proof.
  intros Hdepth. unfold mjdoc___init__.
  destruct (negb (os_path_isdir f path)); [apply has_fuel_raise|].
  apply has_fuel_bind; [apply has_fuel_modify | intros _].
  apply has_fuel_bind_result; [apply has_fuel_lift; now destruct (read_index _ _)|].
  intros index s0 s1 Hi. apply lift_Ok in Hi as [Hi _].
  destruct (read_index _ _) as [doc|] eqn:Hdoc; [|discriminate].
  injection Hi as ->. specialize (Hdepth _ eq_refl).
  apply has_fuel_bind_result; [apply has_fuel_lift; auto with fuel|].
  intros ms s2 s3 Hms. apply lift_Ok in Hms as [Hms _].
  apply has_fuel_bind_result; [apply has_fuel_lift; auto with fuel|].
  intros m s4 s5 Hm. apply lift_Ok in Hm as [Hm _].
  apply has_fuel_bind_result; [apply has_fuel_lift; auto with fuel|].
  intros bs s6 s7 Hbs. apply lift_Ok in Hbs as [Hbs _].
  apply has_fuel_bind_result; [apply has_fuel_lift; auto with fuel|].
  intros b s8 s9 Hb. apply lift_Ok in Hb as [Hb _].
  apply has_fuel_bind_result; [apply has_fuel_lift; auto with fuel|].
  intros cs s10 s11 Hcs. apply lift_Ok in Hcs as [Hcs _].
  apply has_fuel_bind_result; [apply has_fuel_lift; auto with fuel|].
  intros c s12 s13 Hc. apply lift_Ok in Hc as [Hc _].
  apply has_fuel_for_each. intros acc x Hx.
  apply has_fuel_bind; [|intros ?; apply has_fuel_ret].
  unfold call__childFactory. destruct (nonempty kw); [apply has_fuel_raise|].
  apply _childFactory_fuel.
  assert (Hitem : forall (l : list Node) y, item0 l = Ok y -> In y l)
    by (intros [|? ?] y [= <-]; now left).
  pose proof (getElementsByTagName_depth _ _ _ Hms (Hitem _ _ Hm)).
  pose proof (getElementsByTagName_depth _ _ _ Hbs (Hitem _ _ Hb)).
  pose proof (getElementsByTagName_depth _ _ _ Hcs (Hitem _ _ Hc)).
  pose proof (depth_child _ _ Hx). lia.
Qed.

End FuelOfConstruction.

(** ** The exceptions of construction *)

Section Raises.

Context {S : Type} (Q : exn -> Prop).

Lemma raises_only_bind {A B} (c : M S A) (k : A -> M S B) :
  raises_only Q c -> (forall a, raises_only Q (k a)) -> raises_only Q (bind c k).
Proof.
  intros Hc Hk s e s'. unfold bind.
  destruct (c s) as [[a|e1|] s1] eqn:E; intros H.
  - eapply Hk; eauto.
  - injection H as <- <-. eapply Hc; eauto.
  - discriminate.
Qed.

Lemma raises_only_ret {A} (a : A) : raises_only Q (@ret S A a).
Proof. intros s e s'. discriminate. Qed.

Lemma raises_only_lift {A} (r : result A) :
  result_raises_only Q r -> raises_only Q (@lift S A r).
Proof. intros Hr s e s' [= -> _]. now apply Hr. Qed.

Lemma raises_only_raise {A} e : Q e -> raises_only Q (@raise S A e).
Proof. intros He s e' s' [= <- _]. exact He. Qed.

Lemma raises_only_modify (f : S -> S) : raises_only Q (modify f).
Proof. intros s e s'. discriminate. Qed.

Lemma raises_only_for_each {A B} (body : B -> A -> M S B) :
  (forall acc x, raises_only Q (body acc x)) ->
  forall xs acc, raises_only Q (for_each xs acc body).
Proof.
  intros Hbody. induction xs as [|x xs IH]; intros acc; simpl.
  - apply raises_only_ret.
  - apply raises_only_bind; auto.
Qed.

Lemma result_raises_only_rbind {A B} (r : result A) (k : A -> result B) :
  result_raises_only Q r -> (forall a, result_raises_only Q (k a)) ->
  result_raises_only Q (rbind r k).
Proof.
  intros Hr Hk e. destruct r; simpl; intros H.
  - eapply Hk; eauto.
  - injection H as <-. now apply Hr.
  - discriminate.
Qed.

Lemma result_raises_only_Ok {A} (a : A) : result_raises_only Q (Ok a).
Proof. intros e. discriminate. Qed.

End Raises.

Create HintDb exceptions.

Section ClassifierExceptions.

Context {P : Platform}.

Ltac benign :=
  repeat match goal with
    | |- result_raises_only _ (rbind _ _) => apply result_raises_only_rbind; [|intros ?]
    | |- result_raises_only _ (Ok _) => apply result_raises_only_Ok
    | |- result_raises_only _ (Raise _) => let e := fresh in intros e [= <-]; exact I
    | |- result_raises_only _ (match ?x with _ => _ end) => destruct x
    | |- _ => solve [auto with exceptions]
    end.

Lemma item0_exceptions {A} (l : list A) :
  result_raises_only classifier_exception (item0 l).
Proof. unfold item0. benign. Qed.

Lemma firstChild_wholeText_exceptions n :
  result_raises_only classifier_exception (minidom.firstChild_wholeText n).
Proof. unfold minidom.firstChild_wholeText. benign. Qed.

Lemma getElementsByTagName_exceptions n t :
  result_raises_only classifier_exception (minidom.getElementsByTagName n t).
Proof. unfold minidom.getElementsByTagName. benign. Qed.

Lemma getNamedItem_value_exceptions n k :
  result_raises_only classifier_exception (minidom.getNamedItem_value n k).
Proof. unfold minidom.getNamedItem_value. benign. Qed.

Hint Resolve item0_exceptions firstChild_wholeText_exceptions
     getElementsByTagName_exceptions getNamedItem_value_exceptions : exceptions.

Lemma first_text_exceptions n t :
  result_raises_only classifier_exception (first_text n t).
Proof. unfold first_text. benign. Qed.

Lemma date_attribute_exceptions cs attr :
  result_raises_only classifier_exception (date_attribute cs attr).
Proof.
  unfold date_attribute, minidom.firstChild_nodeValue. benign.
  intros e [= <-]. now destruct s.
Qed.

Hint Resolve first_text_exceptions date_attribute_exceptions : exceptions.

Lemma _MJElement___init___exceptions node Pa v :
  result_raises_only classifier_exception (_MJElement___init__ node Pa v).
Proof. unfold _MJElement___init__. benign. Qed.

Hint Resolve _MJElement___init___exceptions : exceptions.

Lemma entry___init___exceptions node Pa v kw :
  result_raises_only classifier_exception (entry___init__ node Pa v kw).
Proof. unfold entry___init__, minidom.attributes_items, dict_item. benign. Qed.

Lemma journal___init___exceptions recur cls node Pa v kw :
  raises_well recur -> raises_only classifier_exception (journal___init__ recur cls node Pa v kw).
Proof.
  intros Hrec. unfold journal___init__.
  apply raises_only_bind;
    [apply raises_only_lift, _MJElement___init___exceptions | intros b].
  apply raises_only_bind; [apply raises_only_lift, first_text_exceptions | intros nm].
  apply raises_only_bind.
  { destruct v; [|apply raises_only_ret].
    destruct (FullName _); apply raises_only_modify. }
  intros _. apply raises_only_bind; [|intros ?; apply raises_only_ret].
  destruct cls; simpl.
  1,2: unfold journal__parseContents;
    (apply raises_only_bind;
      [apply raises_only_lift, getElementsByTagName_exceptions | intros cs]);
    (destruct cs as [|c0 ?]; [apply raises_only_ret|]);
    (apply raises_only_bind;
      [ apply raises_only_for_each; intros acc x;
        apply raises_only_bind;
        [ unfold call__childFactory; destruct (nonempty kw);
          [apply raises_only_raise; exact I | apply Hrec]
        | intros child; destruct (isinstance_journal child); apply raises_only_ret ]
      | intros j1 ]);
    (apply raises_only_bind;
      [apply raises_only_lift, getElementsByTagName_exceptions | intros ps]);
    (destruct ps as [|p0 ?]; [apply raises_only_ret|]);
    (apply raises_only_bind;
      [apply raises_only_lift, getElementsByTagName_exceptions | intros ks]);
    destruct ks; apply raises_only_ret.
  unfold TrashJournal__parseContents.
  apply raises_only_bind; [apply raises_only_modify | intros ?; apply raises_only_ret].
Qed.

Lemma _childFactory_body_exceptions recur :
  raises_well recur -> raises_well (_childFactory_body recur).
Proof.
  intros Hrec node Pa v. unfold _childFactory_body.
  assert (Hverbose : forall label,
             raises_only classifier_exception
                         (if v
                      then bind (lift (minidom.getNamedItem_value node "id"))
                                (fun id => print (label ++ id))
                      else ret tt)).
  { intros label. destruct v; [|apply raises_only_ret].
    apply raises_only_bind;
      [apply raises_only_lift, getNamedItem_value_exceptions
      | intros ?; apply raises_only_modify]. }
  destruct (minidom.nodeName node =? "smart_journal") eqn:E1.
  { apply raises_only_bind; [apply (Hverbose ("Smart Journal" ++ newline ++ tab ++ "id="))|].
    intros _. now apply journal___init___exceptions. }
  destruct (minidom.nodeName node =? "journal") eqn:E2.
  { apply raises_only_bind; [apply (Hverbose ("Journal" ++ newline ++ tab ++ "id="))|].
    intros _. apply raises_only_bind;
      [apply raises_only_lift, first_text_exceptions | intros nm].
    destruct (nm =? "Trash"); now apply journal___init___exceptions. }
  destruct (minidom.nodeName node =? "entry") eqn:E3.
  { apply raises_only_lift, entry___init___exceptions. }
  apply raises_only_raise. simpl. exists (minidom.nodeName node).
  split; [|reflexivity]. unfold recognized. now rewrite E1, E2, E3.
Qed.

(** A [NotImplementedError] out of the classifier is the one for an
    unrecognized tag, of the node itself or of a node below it. *)
Lemma _childFactory_exceptions fuel : raises_well (_childFactory fuel).
Proof.
  induction fuel as [|fuel IH]; intros node Pa v; simpl;
    apply _childFactory_body_exceptions.
  - intros ? ? ? s e s'. discriminate.
  - exact IH.
Qed.

End ClassifierExceptions.

(** ** The classifier *)

Section Classifier.

Context {P : Platform}.

(** C7. For a node whose tag is none of [smart_journal], [journal] and
    [entry] the classifier raises the [NotImplementedError] that names
    the tag, at once: no element is returned and nothing is printed.
    For a node with one of the three tags it never raises that error
    for the node's tag. *)
Theorem C7_unrecognized_tag fuel node Pa v s :
  (recognized (minidom.nodeName node) = false ->
   _childFactory fuel node Pa v s
   = (Raise (unknown_child_type (minidom.nodeName node)), s))
  /\ (recognized (minidom.nodeName node) = true ->
      fst (_childFactory fuel node Pa v s)
      <> Raise (unknown_child_type (minidom.nodeName node))).
Proof.
  split.
  - unfold recognized. intros H.
    apply orb_false_iff in H as [H H3]. apply orb_false_iff in H as [H1 H2].
    destruct fuel; simpl; unfold _childFactory_body; now rewrite H1, H2, H3.
  - intros Hrec Hraise.
    destruct (_childFactory fuel node Pa v s) as [r s'] eqn:E. simpl in Hraise.
    subst r. apply _childFactory_exceptions in E.
    destruct E as (t & Ht & E). unfold unknown_child_type in E. simpl in E.
    injection E as E. congruence.
Qed.

(** What an element comes from: its own [_MJElement.__init__] went
    through. *)
Lemma _childFactory_body_base recur node Pa v s e s' :
  _childFactory_body recur node Pa v s = (Ok e, s') ->
  exists b, _MJElement___init__ node Pa v = Ok b.
Proof.
  unfold _childFactory_body. intros H.
  assert (Hj : forall cls s0, journal___init__ recur cls node Pa v [] s0 = (Ok e, s') ->
                              exists b, _MJElement___init__ node Pa v = Ok b).
  { intros cls s0 Hi. unfold journal___init__ in Hi.
    apply bind_Ok in Hi as (b & s1 & Hb & _). apply lift_Ok in Hb as [Hb _]. eauto. }
  destruct (minidom.nodeName node =? "smart_journal").
  { apply bind_Ok in H as (? & ? & _ & H). eauto. }
  destruct (minidom.nodeName node =? "journal").
  { apply bind_Ok in H as (? & ? & _ & H). apply bind_Ok in H as (nm & ? & _ & H).
    destruct (nm =? "Trash"); eauto. }
  destruct (minidom.nodeName node =? "entry"); [|discriminate].
  apply lift_Ok in H as [H _]. unfold entry___init__ in H.
  apply rbind_Ok in H as (b & Hb & _). eauto.
Qed.


End Classifier.

Lemma C7_unrecognized_tag_witness :
  recognized (minidom.nodeName (Text " ")) = false
  /\ @_childFactory Sample.lenient 0 (Text " ") (O_mjdoc "/doc" "") false []
     = (Raise (unknown_child_type "#text"), [])
  /\ recognized (minidom.nodeName Sample.day_one) = true
  /\ fst (@_childFactory Sample.lenient 0 Sample.day_one (O_mjdoc "/doc" "") false [])
     <> Raise (unknown_child_type "entry").
Proof.
  split; [reflexivity|].
  split; [exact (proj1 (@C7_unrecognized_tag Sample.lenient 0 (Text " ")
                          (O_mjdoc "/doc" "") false []) eq_refl)|].
  split; [reflexivity|].
  exact (proj2 (@C7_unrecognized_tag Sample.lenient 0 Sample.day_one
                  (O_mjdoc "/doc" "") false []) eq_refl).
Defined.

(** ** The first [name] element and the [name] child *)

(** When no [name] element comes before the [name] child of an element,
    neither among its earlier children nor below them, the classifier
    reads the text of that child. *)
Lemma first_text_name_child t a pre n rest :
  Forall (fun c => minidom.tag_matches "name" c = false
                   /\ no_element_below "name" c = true) pre ->
  minidom.tag_matches "name" n = true ->
  first_text (Element t a (pre ++ n :: rest)) "name" = minidom.firstChild_wholeText n
  /\ child_name_text (Element t a (pre ++ n :: rest))
     = match minidom.firstChild_wholeText n with
       | Ok s => Some s
       | _ => None
       end.
Proof.
  intros Hpre Hn. unfold first_text, child_name_text.
  cbn [minidom.getElementsByTagName minidom.childNodes rbind].
  rewrite _get_elements_by_tagName_helper_children. cbn [app].
  induction Hpre as [|c pre [Hc Hbelow] _ IH]; cbn [app flat_map filter].
  - rewrite Hn. now cbn.
  - rewrite Hc. unfold no_element_below in Hbelow. apply negb_true_iff in Hbelow.
    destruct (minidom._get_elements_by_tagName_helper c "name" []); [|discriminate].
    exact IH.
Qed.

Example first_text_trash :
  first_text Sample_trash.trash "name" = Ok "Trash"
  /\ first_text Sample_trash.trash_after_children "name" = Ok "Work".
Proof. split; reflexivity. Qed.



(** C1, on the code. With the date parser of the standard library, which
    takes a text and a format, the call with the text alone that
    [_MJElement.__init__] makes raises a [TypeError]: for every node whose
    [date] child is there with something in it the constructor raises it,
    and the classifier never returns an element, of any class. *)
Theorem C1_strptime_arity (P : Platform)
        (parse : string -> string -> datetime + strptime_error) :
  (forall args, strptime args = python_strptime parse args) ->
  (forall node Pa v dateNode text,
      item0 (filter (fun n => minidom.nodeName n =? "date") (minidom.childNodes node))
      = Ok dateNode ->
      minidom.firstChild_nodeValue dateNode = Ok text ->
      _MJElement___init__ node Pa v = Raise TypeError)
  /\ (forall fuel node Pa v s e s', _childFactory fuel node Pa v s <> (Ok e, s')).
Proof.
  intros Hstrptime.
  assert (Hone : forall text, strptime [text] = inr BadCall).
  { intros text. rewrite Hstrptime. now destruct text. }
  split.
  - intros node Pa v dateNode text Hnode Htext.
    unfold _MJElement___init__, date_attribute. rewrite Hnode. simpl.
    rewrite Htext. simpl. now rewrite Hone.
  - intros fuel node Pa v s e s' H.
    assert (Hb : exists b, _MJElement___init__ node Pa v = Ok b).
    { destruct fuel; simpl in H; eapply _childFactory_body_base; exact H. }
    destruct Hb as [b Hb]. unfold _MJElement___init__ in Hb.
    apply rbind_Ok in Hb as (d & Hd & _). unfold date_attribute in Hd.
    apply rbind_Ok in Hd as (dn & _ & Hd). apply rbind_Ok in Hd as (text & _ & Hd).
    rewrite Hone in Hd. discriminate.
Qed.

Lemma C1_strptime_arity_witness :
  (forall args, @strptime Sample_python.python args
                = python_strptime (fun date_string _ => inl date_string) args)
  /\ @_MJElement___init__ Sample_python.python Sample.day_one (O_mjdoc "/doc" "") false
     = Raise TypeError
  /\ (forall fuel node Pa v s e s',
         @_childFactory Sample_python.python fuel node Pa v s <> (Ok e, s')).
Proof.
  assert (H : forall args, @strptime Sample_python.python args
                           = python_strptime (fun date_string _ => inl date_string) args)
    by reflexivity.
  split; [exact H|].
  destruct (@C1_strptime_arity Sample_python.python _ H) as [H1 H2].
  split; [|exact H2].
  apply (H1 Sample.day_one (O_mjdoc "/doc" "") false
            (Element "date" [] [Text "2014-03-01 10:00:00"])
            (PyStr "2014-03-01 10:00:00")); reflexivity.
Defined.

(** The sample document cannot be loaded with the date parser of the
    standard library: the first journal raises the [TypeError]. *)
Example C1_failing_input :
  @mjdoc___init__ Sample_python.python 1 Sample.disk Sample_run.location_ false [] []
  = (Raise TypeError, ["/Users/me/Journal.mjdoc/index.mjml.gz"]).
Proof. vm_compute. reflexivity. Qed.

(** ** Paths *)





Section Trees.

Context {P : Platform}.

Lemma built_Parent Pa x : built Pa x -> Parent (base (attrs x)) = Pa.
Proof. now destruct 1. Qed.

Lemma built_fresh Pa x : built Pa x -> _keywords (attrs x) = None.
Proof. now destruct 1. Qed.


Lemma built_child Pa cls a j cs c :
  built Pa (Journal cls a j) -> children j = Some cs -> In c cs ->
  built (as_object a) c.
Proof. inversion 1; subst. eauto. Qed.

(** Every element of a built tree is built, under some parent. *)
Lemma within_built x e :
  within x e -> forall Pa, built Pa e -> exists Px, built Px x.
Proof.
  induction 1 as [e | x cls a j cs c Hcs Hin Hw IH]; intros Pa Hb.
  - eauto.
  - eapply IH, built_child; eauto.
Qed.

(** Below a built tree every parent has the real path of the root's
    parent: journals add nothing to it and entries have no children. *)
Lemma within_RealPath x e :
  within x e -> forall Pa, built Pa e ->
  RealPath (Parent (base (attrs x))) = RealPath Pa.
Proof.
  induction 1 as [e | x cls a j cs c Hcs Hin Hw IH]; intros Pa Hb.
  - now rewrite (built_Parent Hb).
  - rewrite (IH (as_object a)) by (eapply built_child; eauto).
    inversion Hb; subst. unfold as_object. simpl.
    match goal with H : _realpath (base a) = None |- _ => now rewrite H end.
Qed.

Lemma in_document_built fuel f path v kw s d s' x :
  mjdoc___init__ fuel f path v kw s = (Ok d, s') ->
  in_document x d ->
  (exists Px, built Px x) /\
  RealPath (Parent (base (attrs x))) = abs_path d.
Proof.
  intros Hd (k & T & HT & Hw).
  apply mjdoc___init___built in Hd as (_ & _ & Hjs).
  specialize (Hjs k T HT). split.
  - eapply within_built; eauto.
  - now rewrite (within_RealPath Hw Hjs).
Qed.

(** *** Relative paths *)

(** C5. In a constructed document the root's relative path is empty,
    and the relative path of every journal, of whichever class, is the
    join of its parent's relative path with its name.  Its parent is
    the object that holds it: the document for a journal of the
    document, the journal whose child it is otherwise. *)
Theorem C5_RelativePath fuel f path v kw s d s' :
  mjdoc___init__ fuel f path v kw s = (Ok d, s') ->
  RelativePath (mjdoc_object d) = ""
  /\ (forall J, in_document J d -> isinstance_journal J = true ->
        RelativePath (element_object J)
        = os_path.join (RelativePath (Parent (base (attrs J)))) [name (attrs J)])
  /\ (forall k T, In (k, T) (doc_Journals d) ->
        Parent (base (attrs T)) = mjdoc_object d)
  /\ (forall cls a j cs c, in_document (Journal cls a j) d ->
        children j = Some cs -> In c cs ->
        Parent (base (attrs c)) = element_object (Journal cls a j)).
Proof.
  intros Hd. edestruct mjdoc___init___built as (Hrel & _ & Hjs); [exact Hd|].
  repeat split.
  - exact Hrel.
  - intros k T HT. apply built_Parent. eauto.
  - intros cls a j cs c HJ Hcs Hin.
    edestruct in_document_built as ((Px & Hb) & _); [exact Hd | exact HJ |].
    apply built_Parent. eapply built_child; eauto.
Qed.

(** *** Real paths *)


End Trees.

Lemma C5_RelativePath_witness :
  @mjdoc___init__ Sample.lenient 1 Sample.disk Sample_run.location_ false [] []
  = (Ok Sample_run.document, ["/Users/me/Journal.mjdoc/index.mjml.gz"])
  /\ RelativePath (mjdoc_object Sample_run.document) = ""
  /\ (forall J, in_document J Sample_run.document -> isinstance_journal J = true ->
        RelativePath (element_object J)
        = os_path.join (RelativePath (Parent (base (attrs J)))) [name (attrs J)]).
Proof.
  assert (H : @mjdoc___init__ Sample.lenient 1 Sample.disk Sample_run.location_ false [] []
              = (Ok Sample_run.document, ["/Users/me/Journal.mjdoc/index.mjml.gz"]))
    by (vm_compute; reflexivity).
  split; [exact H|].
  destruct (@C5_RelativePath Sample.lenient _ _ _ _ _ _ _ _ H) as (H1 & H2 & _).
  split; [exact H1 | exact H2].
Defined.


Section EntryPaths.

Context {P : Platform}.


End EntryPaths.



(** ** Keywords *)

Lemma filter_swap {A} (p q : A -> bool) l :
  filter p (filter q l) = filter q (filter p l).
Proof.
  induction l as [|x l IH]; simpl; auto.
  destruct (p x) eqn:Hp, (q x) eqn:Hq; simpl; rewrite ?Hp, ?Hq, IH; auto.
Qed.

Lemma filter_both {A} (p q : A -> bool) l :
  filter p (filter q l) = filter (fun x => q x && p x) l.
Proof.
  induction l as [|x l IH]; simpl; auto.
  destruct (q x) eqn:Hq; simpl; [destruct (p x)|]; now rewrite IH.
Qed.

Lemma filter_without {A} (p q : A -> bool) l :
  (forall x, q x = false -> p x = false) ->
  filter p (filter q l) = filter p l.
Proof.
  intros H. induction l as [|x l IH]; simpl; auto.
  destruct (q x) eqn:Hq; simpl; rewrite IH; auto. now rewrite (H x Hq).
Qed.

Lemma first_seen_filter (p : string -> bool) ws :
  first_seen (filter p ws) = filter p (first_seen ws).
Proof.
  induction ws as [|w ws IH]; simpl; auto.
  destruct (p w) eqn:Hp; simpl; rewrite ?Hp, IH.
  - f_equal. apply filter_swap.
  - symmetry. apply filter_without. intros x Hx.
    apply negb_false_iff, String.eqb_eq in Hx. now subst x.
Qed.

(** The loop gathers the words first seen. *)
Lemma gather_first_seen ws :
  forall seen,
    gather seen ws
    = (seen ++ first_seen (filter (fun w => negb (existsb (String.eqb w) seen)) ws))%list.
Proof.
  unfold gather. induction ws as [|w ws IH]; intros seen; simpl.
  - now rewrite app_nil_r.
  - destruct (existsb (String.eqb w) seen) eqn:Hw; simpl.
    + apply IH.
    + rewrite IH, <- app_assoc. simpl. do 2 f_equal.
      rewrite <- first_seen_filter, filter_both. f_equal.
      apply filter_ext. intros x. rewrite existsb_app. simpl.
      now rewrite orb_false_r, negb_orb.
Qed.

Lemma first_seen_In ws w : In w (first_seen ws) <-> In w ws.
Proof.
  induction ws as [|x ws IH]; simpl; [tauto|].
  rewrite filter_In, IH, negb_true_iff, String.eqb_neq.
  destruct (String.eqb_spec x w); intuition congruence.
Qed.

Lemma first_seen_NoDup ws : NoDup (first_seen ws).
Proof.
  induction ws as [|x ws IH]; simpl; constructor.
  - rewrite filter_In, negb_true_iff, String.eqb_neq. tauto.
  - now apply NoDup_filter.
Qed.

Section Keywords.

Context {P : Platform}.


Lemma attrs_with_attrs (self : MJElement) a : attrs (with_attrs self a) = a.
Proof. now destruct self. Qed.

Lemma with_attrs_with_attrs (self : MJElement) a a' :
  with_attrs (with_attrs self a) a' = with_attrs self a'.
Proof. now destruct self. Qed.

Lemma with_attrs_same (self : MJElement) ks :
  _keywords (attrs self) = Some ks ->
  with_attrs self (set__keywords (Some ks) (attrs self)) = self.
Proof. destruct self as [c [] j|[] e]; simpl; now intros ->. Qed.

(** The loop of [keywords] over elements that all have text. *)
Lemma keywords_loop elements :
  Forall (fun k => has_text k = true) elements ->
  forall self ks,
    _keywords (attrs self) = Some ks ->
    for_each elements tt
      (fun _ keyword =>
         bind (lift (minidom.firstChild_wholeText keyword)) (fun word =>
         bind get__keywords (fun ks =>
         if negb (str_in word ks)
         then bind (lift (minidom.firstChild_wholeText keyword)) (fun word' =>
              assign__keywords (ks ++ [word'])%list)
         else ret tt))) self
    = (Ok tt,
       with_attrs self (set__keywords (Some (gather ks (texts elements))) (attrs self))).
Proof.
  induction 1 as [|k elements Hk _ IH]; intros self ks Hks.
  - simpl. unfold ret. now rewrite with_attrs_same.
  - match goal with |- for_each _ _ ?b _ = _ => set (body := b) in * end.
    unfold has_text in Hk.
    destruct (minidom.firstChild_wholeText k) as [word| |] eqn:Hword; try discriminate.
    assert (Hb : body tt k self
                 = (Ok tt, with_attrs self
                             (set__keywords (Some (gather ks [word])) (attrs self)))).
    { subst body. cbn beta. rewrite Hword.
      unfold bind, lift, get__keywords. rewrite Hks.
      unfold gather, str_in. cbn [fold_left].
      destruct (existsb (String.eqb word) ks); cbn [negb].
      - unfold ret. now rewrite with_attrs_same.
      - reflexivity. }
    cbn [for_each]. unfold bind at 1. rewrite Hb.
    rewrite (IH _ (gather ks [word])) by now rewrite attrs_with_attrs.
    rewrite with_attrs_with_attrs, attrs_with_attrs.
    cbn [texts flat_map]. rewrite Hword. reflexivity.
Qed.


End Keywords.


(** ** Location *)

Section Location.

Context {P : Platform}.

(** C10. For an entry whose markup has no [location] element, a query
    that finds none, [latitude], [longitude] and [location] each return
    [None]: no number and no exception. *)
Theorem C10_no_location a e :
  minidom.getElementsByTagName (xml (base a)) "location" = Ok [] ->
  latitude (Entry a e) = Ok None
  /\ longitude (Entry a e) = Ok None
  /\ location (Entry a e) = Ok None.
Proof.
  intros H. unfold location, latitude, longitude, location_attribute.
  rewrite H. simpl. auto.
Qed.

(** An entry comes from an element or a document node, so that the
    query for [location] elements returns. *)
Lemma entry___init___xml node Pa v kw E :
  entry___init__ node Pa v kw = Ok E ->
  exists a e, E = Entry a e /\ xml (base a) = node
              /\ minidom.getElementsByTagName node "location"
                 = Ok (minidom._get_elements_by_tagName_helper node "location" []).
Proof.
  unfold entry___init__. intros H. inv_call H. injection H as <-.
  apply _MJElement___init___attributes in Hr as (Hx & _).
  do 2 eexists. split; [reflexivity|]. simpl. split; [now rewrite <- Hx|].
  destruct node; simpl in *; auto; discriminate.
Qed.

End Location.

Lemma C10_no_location_witness :
  match Sample_run.entry_day_one with
  | Some (Entry a e) =>
      minidom.getElementsByTagName (xml (base a)) "location" = Ok []
      /\ latitude (Entry a e) = Ok None
      /\ longitude (Entry a e) = Ok None
      /\ location (Entry a e) = Ok None
  | _ => False
  end.
Proof.
  cbv beta iota delta [Sample_run.entry_day_one].
  split; [reflexivity | apply C10_no_location; reflexivity].
Defined.

(** ** Export *)

Section ExportPass.

Context {P : Platform}.

(** C8, on the code. The call the export pass makes on a child,
    [child.MakeLaTeX(LT, texdir, level=...)], does not bind to the
    parameters [texdir] and [level] of [smart_journal.MakeLaTeX]: it
    raises a [TypeError], with the journal and the world untouched.
    Called with its own parameters the method does nothing and returns
    [None]. *)
Theorem C8_smart_journal_export a j texdir level w :
  call_MakeLaTeX (Journal smart_journal a j) texdir level w
  = (Raise TypeError, Journal smart_journal a j, w)
  /\ binds (MakeLaTeX_parameters (Journal smart_journal a j)) 1 ["level"] = true
  /\ MakeLaTeX (Journal smart_journal a j) texdir level w
     = (Ok PyNone, Journal smart_journal a j, w).
Proof. repeat split. Qed.

(** A journal with a smart journal among its children cannot be
    exported: the pass stops at that child with the [TypeError]. *)
Lemma journal_with_smart_child a j sa sj texdir level w :
  children j = Some [Journal smart_journal sa sj] ->
  os_path_isdir (fs w) (os_path.join texdir [name a]) = true ->
  LaTeXLevels (LT w) level <> None ->
  fst (fst (MakeLaTeX (Journal journal a j) texdir level w)) = Raise TypeError.
Proof.
  intros Hcs Hdir Hlev. destruct j as [En Jo ch inc]. simpl in Hcs. subst ch.
  cbn [MakeLaTeX]. cbn [world_print fs LT].
  rewrite Hdir. cbn [negb world_print LT].
  destruct (LaTeXLevels (LT w) level) eqn:E; [|congruence].
  reflexivity.
Qed.

(** The export of an entry: the path in the directory it is given, one
    starred line, nothing on the file system. *)
Lemma entry_MakeLaTeX a e texdir level w texLevel :
  LaTeXLevels (LT w) level = Some texLevel ->
  MakeLaTeX (Entry a e) texdir level w
  = (Ok (PyStr (os_path.join texdir [name a])),
     Entry (set__texdir (Some texdir) a) e,
     lines_append (entry_line texLevel (name a)) w).
Proof. intros H. cbn [MakeLaTeX]. now rewrite H. Qed.


End ExportPass.


Example export_lines :
  lines (LT (snd (mjdoc_MakeLaTeX Sample_run.document "/tmp/tex" 0 Sample_keywords.world)))
  = [newline ++ newline ++ "\section{Personal}";
     newline ++ newline ++ "\subsection*{Day One}"].
Proof. vm_compute. reflexivity. Qed.

(** * Further properties *)

(** ** Names and paths *)














Section NamesInDocuments.

Context {P : Platform}.





End NamesInDocuments.



(** ** The export pass *)

Section ExportWalk.

Context {P : Platform}.

(** Induction on an element, with the property known of the children. *)
Lemma MJElement_children_ind (Q : MJElement -> Prop) :
  (forall a e, Q (Entry a e)) ->
  (forall cls a j, (forall cs, children j = Some cs -> Forall Q cs) ->
                   Q (Journal cls a j)) ->
  forall self, Q self.
Proof.
  intros HE HJ. fix IH 1. intros [cls a j | a e].
  - apply HJ. destruct j as [En Jo [cs0|] inc]; intros cs [= <-].
    induction cs0 as [|c cs0 IHcs]; constructor; [apply IH | exact IHcs].
  - apply HE.
Qed.

(** [journal.MakeLaTeX], step by step. *)
Lemma MakeLaTeX_journal cls a j texdir level w :
  cls <> smart_journal ->
  MakeLaTeX (Journal cls a j) texdir level w
  = let _texdir := os_path.join texdir [name a] in
    let a' := set__texdir (Some _texdir) a in
    match made_directory _texdir (world_print _texdir w) with
    | None => (Raise (OSError _texdir), Journal cls a' j, world_print _texdir w)
    | Some w2 =>
        match LaTeXLevels (LT w2) level with
        | None => (Raise LookupError, Journal cls a' j, w2)
        | Some texLevel =>
            let w3 := lines_append (journal_line texLevel (name a)) w2 in
            match children j with
            | None =>
                (Raise AttributeError,
                 Journal cls a' (mkJournal (Entries j) (Journals j) None (Some (PyList []))),
                 w3)
            | Some cs =>
                let '(r, cs', inc, w') :=
                  MakeLaTeX_children cs _texdir level (Some (PyList [])) w3 in
                (r, Journal cls a' (mkJournal (Entries j) (Journals j) (Some cs') inc), w')
            end
        end
    end.
Proof.
  intros Hcls. destruct j as [En Jo ch inc0].
  cbv zeta. unfold made_directory.
  destruct cls; [ | congruence | ]; cbn [MakeLaTeX children Entries Journals];
    cbn [name set__texdir];
    (destruct (if negb (os_path_isdir (fs (world_print (os_path.join texdir [name a]) w))
                          (os_path.join texdir [name a]))
               then _ else _) as [w2|]; [|reflexivity]);
    (destruct (LaTeXLevels (LT w2) level) as [texLevel|]; [|reflexivity]);
    (destruct ch as [cs|]; [|reflexivity]).
  all: match goal with
       | |- context [?F _ (Some (PyList [])) _] =>
           assert (HF : forall cs inc w,
                      F cs inc w
                      = MakeLaTeX_children cs (os_path.join texdir [name a]) level inc w)
       end.
  1, 3: clear cs; intros cs; induction cs as [|c cs IHcs]; intros inc w3; [reflexivity|];
    cbn [MakeLaTeX_children]; unfold call_MakeLaTeX;
    (destruct (binds (MakeLaTeX_parameters c) 2 ["level"]); [|reflexivity]);
    (destruct (MakeLaTeX c (os_path.join texdir [name a]) (level + 1) w3)
       as [[[v|e|] c'] w4]; [|reflexivity|reflexivity]);
    now rewrite IHcs.
  all: now rewrite HF.
Qed.

Lemma initial_nil {A} (full : list A) : initial [] full.
Proof. now exists full. Qed.

Lemma initial_refl {A} (l : list A) : initial l l.
Proof. exists []. now rewrite app_nil_r. Qed.

Lemma initial_app_r {A} (l full more : list A) :
  initial l full -> initial l (full ++ more)%list.
Proof. intros [rest ->]. exists (rest ++ more)%list. now rewrite app_assoc. Qed.

Lemma initial_app_l {A} (done l full : list A) :
  initial l full -> initial (done ++ l)%list (done ++ full)%list.
Proof. intros [rest ->]. exists rest. now rewrite app_assoc. Qed.

Lemma initial_cons {A} (x : A) l full : initial l full -> initial (x :: l) (x :: full).
Proof. intros [rest ->]. now exists rest. Qed.

Lemma heading_line_table t t' h :
  LaTeXLevels t' = LaTeXLevels t -> heading_line t' h = heading_line t h.
Proof. intros H. unfold heading_line. now rewrite H. Qed.

Lemma rendered_table t t' hs :
  LaTeXLevels t' = LaTeXLevels t -> rendered t' hs = rendered t hs.
Proof.
  intros H. unfold rendered. apply flat_map_ext. intros h.
  unfold heading_line. now rewrite H.
Qed.

Lemma renders_table t t' hs :
  LaTeXLevels t' = LaTeXLevels t -> Forall (renders t') hs -> Forall (renders t) hs.
Proof.
  intros H. apply Forall_impl. intros h. unfold renders, heading_line.
  now rewrite H.
Qed.

Lemma rendered_app t hs hs' : rendered t (hs ++ hs') = (rendered t hs ++ rendered t hs')%list.
Proof. apply flat_map_app. Qed.

Lemma make_each_app f ps ps' :
  make_each f (ps ++ ps')
  = match make_each f ps with
    | Some f' => make_each f' ps'
    | None => None
    end.
Proof.
  revert f. induction ps as [|p ps IH]; intros f; [reflexivity|].
  cbn [app make_each]. destruct (os_path_isdir f p); [apply IH|].
  destruct (os_mkdir f p); [apply IH | reflexivity].
Qed.

(** The directory of a journal after [made_directory]: there, and
    nothing else of the world touched. *)
Lemma made_directory_Some dir w w2 :
  made_directory dir w = Some w2 ->
  LT w2 = LT w /\ out w2 = out w /\ make_each (fs w) [dir] = Some (fs w2).
Proof.
  unfold made_directory. cbn [make_each].
  destruct (os_path_isdir (fs w) dir); cbn [negb].
  - intros [= <-]. auto.
  - destruct (os_mkdir (fs w) dir); [|discriminate]. intros [= <-]. auto.
Qed.

Lemma made_directory_None dir w :
  made_directory dir w = None -> make_each (fs w) [dir] = None.
Proof.
  unfold made_directory. cbn [make_each].
  destruct (os_path_isdir (fs w) dir); cbn [negb]; [discriminate|].
  now destruct (os_mkdir (fs w) dir).
Qed.

End ExportWalk.

Section ExportResults.

Context {P : Platform}.

(** The loop over the children of a journal, given what the export of
    each child leaves. *)
Lemma MakeLaTeX_children_outcome cs :
  Forall (fun c => forall texdir level w r c' w',
            call_MakeLaTeX c texdir level w = (r, c', w') ->
            export_outcome c texdir level w r c' w') cs ->
  forall dir level inc w r cs' inc' w',
    MakeLaTeX_children cs dir level inc w = (r, cs', inc', w') ->
    LaTeXLevels (LT w') = LaTeXLevels (LT w)
    /\ map forget_export cs' = map forget_export cs
    /\ (exists added printed,
          lines (LT w') = (lines (LT w) ++ added)%list
          /\ out w' = (out w ++ printed)%list
          /\ initial added (rendered (LT w) (flat_map (headings (level + 1)) cs))
          /\ initial printed (flat_map (directories dir) cs))
    /\ forall v, r = Ok v ->
         lines (LT w')
         = (lines (LT w) ++ rendered (LT w) (flat_map (headings (level + 1)) cs))%list
         /\ out w' = (out w ++ flat_map (directories dir) cs)%list
         /\ Forall (renders (LT w)) (flat_map (headings (level + 1)) cs)
         /\ forallb exportable cs = true
         /\ make_each (fs w) (flat_map (directories dir) cs) = Some (fs w')
         /\ inc' = fold_left (fun _ c => Some (returned dir c)) cs inc
         /\ v = PyNone.
Proof.
  induction 1 as [|c cs Hc _ IH]; intros dir level inc w r cs' inc' w' H.
  - injection H as <- <- <- <-. split; [reflexivity|]. split; [reflexivity|]. split.
    + exists [], []. rewrite !app_nil_r. repeat split; apply initial_nil.
    + intros v [= <-]. cbn. rewrite !app_nil_r. repeat split; constructor.
  - cbn [MakeLaTeX_children] in H.
    destruct (call_MakeLaTeX c dir (level + 1) w) as [[rc c'] w1] eqn:Ec.
    apply Hc in Ec as (Ht & Hf & (added & printed & Hl & Ho & Hia & Hip) & Hok).
    cbn [flat_map forallb fold_left]. rewrite rendered_app.
    destruct rc as [vc|e|].
    + destruct (MakeLaTeX_children cs dir level (Some vc) w1)
        as [[[r1 rest'] inc1] w2] eqn:Er.
      injection H as <- <- <- <-.
      apply IH in Er as (Ht' & Hf' & (added' & printed' & Hl' & Ho' & Hia' & Hip') & Hok').
      destruct (Hok vc eq_refl) as (Hl1 & Ho1 & Hr1 & He1 & Hm1 & Hv1).
      rewrite (rendered_table _ _ _ Ht) in Hia'. setoid_rewrite (rendered_table _ _ _ Ht) in Hok'.
      split; [congruence|]. split; [cbn [map]; congruence|]. split.
      * exists (rendered (LT w) (headings (level + 1) c) ++ added')%list,
          (directories dir c ++ printed')%list.
        rewrite Hl', Ho', Hl1, Ho1, <- !app_assoc.
        repeat split; now apply initial_app_l.
      * intros v ->. destruct (Hok' v eq_refl) as (Hl2 & Ho2 & Hr2 & He2 & Hm2 & Hv2 & Hv3).
        rewrite Hl2, Ho2, Hl1, Ho1, <- !app_assoc, He1, He2, make_each_app, Hm1, Hm2, Hv2, Hv1.
        repeat split; [|exact Hv3]. apply Forall_app. split; [exact Hr1|].
        eapply renders_table; eassumption.
    + injection H as <- <- <- <-.
      split; [exact Ht|]. split; [cbn [map]; congruence|]. split.
      * exists added, printed. repeat split; auto using initial_app_r.
      * discriminate.
    + injection H as <- <- <- <-.
      split; [exact Ht|]. split; [cbn [map]; congruence|]. split.
      * exists added, printed. repeat split; auto using initial_app_r.
      * discriminate.
Qed.

Lemma classic_smart (cls : JournalClass) : cls = smart_journal \/ cls <> smart_journal.
Proof. destruct cls; [right | left | right]; congruence. Qed.

Lemma set__texdir_twice v v' a : set__texdir v (set__texdir v' a) = set__texdir v a.
Proof. reflexivity. Qed.

(** What the export of an element leaves, whatever the element. *)
Lemma call_MakeLaTeX_outcome self :
  forall texdir level w r self' w',
    call_MakeLaTeX self texdir level w = (r, self', w') ->
    export_outcome self texdir level w r self' w'.
Proof.
  induction self as [a e | cls a j IH] using MJElement_children_ind;
    intros texdir level w r self' w' H; unfold export_outcome.
  - unfold call_MakeLaTeX in H. cbn [MakeLaTeX_parameters] in H.
    change (binds [("LT", false); ("texdir", false); ("level", true)] 2 ["level"])
      with true in H. cbn [MakeLaTeX] in H.
    cbn [headings directories rendered flat_map exportable returned make_each].
    unfold heading_line, renders, heading_line. cbn [h_level h_starred h_text].
    destruct (LaTeXLevels (LT w) level) as [texLevel|] eqn:E;
      injection H as <- <- <-; cbn [lines_append LT lines out fs LaTeXLevels name set__texdir].
    + split; [reflexivity|]. split; [reflexivity|]. split.
      * exists [entry_line texLevel (name a)], []. rewrite !app_nil_r.
        repeat split; try apply initial_refl.
      * intros v [= <-]. rewrite !app_nil_r. repeat split.
        constructor; [|constructor]. cbn [h_level]. now rewrite E.
    + split; [reflexivity|]. split; [reflexivity|]. split.
      * exists [], []. rewrite !app_nil_r. repeat split; apply initial_nil.
      * discriminate.
  - unfold call_MakeLaTeX in H.
    destruct (classic_smart cls) as [-> | Hcls].
    { injection H as <- <- <-. split; [reflexivity|]. split; [reflexivity|]. split.
      - exists [], []. rewrite !app_nil_r. repeat split; apply initial_nil.
      - discriminate. }
    assert (Hb : binds (MakeLaTeX_parameters (Journal cls a j)) 2 ["level"] = true)
      by (destruct cls; [reflexivity | congruence | reflexivity]).
    rewrite Hb, MakeLaTeX_journal in H by exact Hcls. cbv zeta in H.
    assert (Hh : headings level (Journal cls a j)
                 = mkHeading level false (name a)
                   :: match children j with
                      | Some cs => flat_map (headings (level + 1)) cs
                      | None => []
                      end)
      by (destruct cls; [reflexivity | congruence | reflexivity]).
    assert (Hd : directories texdir (Journal cls a j)
                 = os_path.join texdir [name a]
                   :: match children j with
                      | Some cs => flat_map (directories (os_path.join texdir [name a])) cs
                      | None => []
                      end)
      by (destruct cls; [reflexivity | congruence | reflexivity]).
    assert (He : exportable (Journal cls a j)
                 = match children j with
                   | Some cs => forallb exportable cs
                   | None => false
                   end)
      by (destruct cls; [reflexivity | congruence | reflexivity]).
    rewrite Hh, Hd, He. clear Hh Hd He Hb.
    set (dir := os_path.join texdir [name a]) in *.
    destruct (made_directory dir (world_print dir w)) as [w2|] eqn:Em.
    2:{ injection H as <- <- <-. split; [reflexivity|]. split; [reflexivity|]. split.
        - exists [], [dir]. cbn [world_print LT out]. rewrite app_nil_r.
          repeat split; [apply initial_nil | apply initial_cons, initial_nil].
        - discriminate. }
    apply made_directory_Some in Em as (HLT & Hout & Hmk).
    cbn [world_print LT out fs make_each] in HLT, Hout, Hmk.
    rewrite HLT in H.
    unfold rendered at 1 2. cbn [flat_map]. fold (rendered (LT w)).
    unfold renders at 1. unfold heading_line at 1 2 3. cbn [h_level h_starred h_text].
    destruct (LaTeXLevels (LT w) level) as [texLevel|] eqn:E.
    2:{ injection H as <- <- <-. rewrite HLT, Hout.
        split; [reflexivity|]. split; [reflexivity|]. split.
        - exists [], [dir]. rewrite app_nil_r.
          repeat split; [apply initial_nil | apply initial_cons, initial_nil].
        - discriminate. }
    destruct (children j) as [cs|] eqn:Ecs.
    2:{ injection H as <- <- <-. cbn [lines_append LT lines out LaTeXLevels].
        rewrite HLT, Hout. split; [reflexivity|].
        split; [cbn [forget_export children Entries Journals]; now rewrite Ecs|]. split.
        - exists [journal_line texLevel (name a)], [dir].
          repeat split; apply initial_refl.
        - discriminate. }
    set (w2' := lines_append (journal_line texLevel (name a)) w2) in *.
    assert (Htab : LaTeXLevels (LT w2') = LaTeXLevels (LT w)) by (cbn; now rewrite HLT).
    assert (Hlines : lines (LT w2') = (lines (LT w) ++ [journal_line texLevel (name a)])%list)
      by (cbn; now rewrite HLT).
    assert (Hout' : out w2' = (out w ++ [dir])%list) by exact Hout.
    assert (Hfs : fs w2' = fs w2) by reflexivity.
    clearbody w2'.
    destruct (MakeLaTeX_children cs dir level (Some (PyList [])) w2')
      as [[[r1 cs'] inc'] w3] eqn:Ec.
    injection H as <- <- <-.
    apply (MakeLaTeX_children_outcome (IH cs eq_refl)) in Ec
      as (Ht & Hf & (added & printed & Hl & Ho & Hia & Hip) & Hok).
    rewrite (rendered_table _ _ _ Htab) in Hia.
    rewrite Htab in Ht. rewrite Hlines in Hl. rewrite Hout' in Ho.
    split; [exact Ht|].
    split; [cbn [forget_export children Entries Journals]; now rewrite Ecs, Hf|]. split.
    + exists (journal_line texLevel (name a) :: added), (dir :: printed).
      rewrite Hl, Ho, <- !app_assoc. repeat split; now apply initial_cons.
    + intros v ->. destruct (Hok v eq_refl) as (Hl2 & Ho2 & Hr2 & He2 & Hm2 & _ & Hv).
      rewrite (rendered_table _ _ _ Htab), Hlines in Hl2. rewrite Hout' in Ho2.
      rewrite Hfs in Hm2.
      rewrite Hl2, Ho2, <- !app_assoc. repeat split; auto.
      * constructor; [unfold heading_line; cbn [h_level]; now rewrite E|].
        eapply renders_table; [|exact Hr2]. now symmetry.
      * change (dir :: flat_map (directories dir) cs)
          with ([dir] ++ flat_map (directories dir) cs)%list.
        rewrite make_each_app. cbn [make_each].
        destruct (os_path_isdir (fs w) dir);
          [injection Hmk as Hmk; now rewrite Hmk|].
        destruct (os_mkdir (fs w) dir); [|discriminate].
        injection Hmk as Hmk. now rewrite Hmk.
Qed.

Lemma make_each_app_Some f ps ps' :
  make_each f (ps ++ ps') <> None ->
  exists f', make_each f ps = Some f' /\ make_each f' ps' <> None.
Proof.
  rewrite make_each_app. destruct (make_each f ps) as [f'|]; [|congruence].
  intros H. now exists f'.
Qed.

(** The loop over the children returns when each child can be
    exported. *)
Lemma MakeLaTeX_children_returns cs :
  Forall (fun c => forall texdir level w,
            exportable c = true ->
            Forall (renders (LT w)) (headings level c) ->
            make_each (fs w) (directories texdir c) <> None ->
            exists c' w', call_MakeLaTeX c texdir level w = (Ok (returned texdir c), c', w')) cs ->
  forall dir level inc w,
    forallb exportable cs = true ->
    Forall (renders (LT w)) (flat_map (headings (level + 1)) cs) ->
    make_each (fs w) (flat_map (directories dir) cs) <> None ->
    exists cs' inc' w',
      MakeLaTeX_children cs dir level inc w = (Ok PyNone, cs', inc', w').
Proof.
  induction 1 as [|c cs Hc _ IH]; intros dir level inc w He Hr Hm.
  - now exists [], inc, w.
  - cbn [forallb flat_map] in He, Hr, Hm.
    apply andb_prop in He as [He1 He2]. apply Forall_app in Hr as [Hr1 Hr2].
    apply make_each_app_Some in Hm as (f1 & Hm1 & Hm2).
    destruct (Hc dir (level + 1)%Z w He1 Hr1) as (c' & w1 & Ec); [congruence|].
    cbn [MakeLaTeX_children]. rewrite Ec.
    apply call_MakeLaTeX_outcome in Ec as (Ht & _ & _ & Hok).
    destruct (Hok _ eq_refl) as (_ & _ & _ & _ & Hfs & _).
    assert (f1 = fs w1) by congruence. subst f1.
    destruct (IH dir level (Some (returned dir c)) w1 He2) as (cs' & inc' & w2 & Er);
      [eapply renders_table; [symmetry; exact Ht | exact Hr2] | exact Hm2 |].
    rewrite Er. now exists (c' :: cs'), inc', w2.
Qed.

(** An element the pass can walk is exported when the table has a name
    for the level of each of its headings and each of its directories is
    there or can be made when the pass comes to it. *)
Lemma call_MakeLaTeX_returns self :
  forall texdir level w,
    exportable self = true ->
    Forall (renders (LT w)) (headings level self) ->
    make_each (fs w) (directories texdir self) <> None ->
    exists self' w',
      call_MakeLaTeX self texdir level w = (Ok (returned texdir self), self', w').
Proof.
  induction self as [a e | cls a j IH] using MJElement_children_ind;
    intros texdir level w He Hr Hm.
  - unfold call_MakeLaTeX. cbn [MakeLaTeX_parameters].
    change (binds [("LT", false); ("texdir", false); ("level", true)] 2 ["level"])
      with true. cbn [MakeLaTeX headings] in *.
    apply Forall_inv in Hr. unfold renders, heading_line in Hr. cbn [h_level] in Hr.
    destruct (LaTeXLevels (LT w) level); [|congruence]. eauto.
  - destruct (classic_smart cls) as [-> | Hcls]; [discriminate|].
    unfold call_MakeLaTeX.
    assert (Hb : binds (MakeLaTeX_parameters (Journal cls a j)) 2 ["level"] = true)
      by (destruct cls; [reflexivity | congruence | reflexivity]).
    rewrite Hb, MakeLaTeX_journal by exact Hcls. cbv zeta.
    assert (Hcs : exists cs, children j = Some cs /\ forallb exportable cs = true).
    { destruct cls; [ | congruence | ]; cbn [exportable] in He;
        (destruct (children j) as [cs|]; [now exists cs | discriminate]). }
    destruct Hcs as (cs & Ecs & Hes).
    assert (Hh : headings level (Journal cls a j)
                 = mkHeading level false (name a) :: flat_map (headings (level + 1)) cs)
      by (destruct cls; [ | congruence | ]; cbn [headings]; now rewrite Ecs).
    assert (Hd : directories texdir (Journal cls a j)
                 = ([os_path.join texdir [name a]]
                    ++ flat_map (directories (os_path.join texdir [name a])) cs)%list)
      by (destruct cls; [ | congruence | ]; cbn [directories]; now rewrite Ecs).
    rewrite Hh in Hr. rewrite Hd in Hm. clear Hh Hd Hb He.
    set (dir := os_path.join texdir [name a]) in *.
    apply make_each_app_Some in Hm as (f1 & Hm1 & Hm2).
    destruct (made_directory dir (world_print dir w)) as [w2|] eqn:Em.
    2:{ apply made_directory_None in Em. cbn [world_print fs] in Em. congruence. }
    apply made_directory_Some in Em as (HLT & Hout & Hmk).
    cbn [world_print LT out fs] in HLT, Hout, Hmk.
    assert (f1 = fs w2) by congruence. subst f1.
    apply Forall_cons_iff in Hr as [Hr1 Hr2].
    unfold renders at 1 in Hr1. unfold heading_line in Hr1. cbn [h_level h_starred] in Hr1.
    rewrite HLT. destruct (LaTeXLevels (LT w) level) as [texLevel|]; [|congruence].
    rewrite Ecs.
    edestruct (MakeLaTeX_children_returns (IH cs Ecs) dir level (Some (PyList []))
                 (lines_append (journal_line texLevel (name a)) w2))
      as (cs' & inc' & w3 & Ec);
      [ exact Hes
      | eapply renders_table; [|exact Hr2]; cbn; now rewrite HLT
      | exact Hm2 | ].
    rewrite Ec. cbn [returned]. eauto.
Qed.

End ExportResults.

Section DocumentExportResults.

Context {P : Platform}.

(** The loop of [mjdoc.MakeLaTeX] over the journals of the document. *)
Lemma mjdoc_MakeLaTeX_loop_outcome js :
  forall texdir level w r js' w',
    mjdoc_MakeLaTeX_loop js texdir level w = (r, js', w') ->
    LaTeXLevels (LT w') = LaTeXLevels (LT w)
    /\ map (fun kJ => (fst kJ, forget_export (snd kJ))) js'
       = map (fun kJ => (fst kJ, forget_export (snd kJ))) js
    /\ (exists added printed,
          lines (LT w') = (lines (LT w) ++ added)%list
          /\ out w' = (out w ++ printed)%list
          /\ initial added (rendered (LT w) (flat_map (fun kJ => headings level (snd kJ)) js))
          /\ initial printed (flat_map (fun kJ => directories texdir (snd kJ)) js))
    /\ (r = Ok tt ->
        lines (LT w')
        = (lines (LT w)
           ++ rendered (LT w) (flat_map (fun kJ => headings level (snd kJ)) js))%list
        /\ out w' = (out w ++ flat_map (fun kJ => directories texdir (snd kJ)) js)%list
        /\ Forall (renders (LT w)) (flat_map (fun kJ => headings level (snd kJ)) js)
        /\ forallb (fun kJ => exportable (snd kJ)) js = true
        /\ make_each (fs w) (flat_map (fun kJ => directories texdir (snd kJ)) js)
           = Some (fs w')).
Proof.
  induction js as [|[k J] js IH]; intros texdir level w r js' w' H.
  - injection H as <- <- <-. split; [reflexivity|]. split; [reflexivity|]. split.
    + exists [], []. rewrite !app_nil_r. repeat split; apply initial_nil.
    + intros _. cbn. rewrite !app_nil_r. repeat split; constructor.
  - cbn [mjdoc_MakeLaTeX_loop] in H.
    destruct (call_MakeLaTeX J texdir level w) as [[rc J'] w1] eqn:Ec.
    apply call_MakeLaTeX_outcome in Ec
      as (Ht & Hf & (added & printed & Hl & Ho & Hia & Hip) & Hok).
    cbn [flat_map forallb map fst snd]. rewrite rendered_app.
    destruct rc as [vc|e|].
    + destruct (mjdoc_MakeLaTeX_loop js texdir level w1) as [[r1 rest'] w2] eqn:Er.
      injection H as <- <- <-.
      apply IH in Er as (Ht' & Hf' & (added' & printed' & Hl' & Ho' & Hia' & Hip') & Hok').
      destruct (Hok vc eq_refl) as (Hl1 & Ho1 & Hr1 & He1 & Hm1 & Hv1).
      rewrite (rendered_table _ _ _ Ht) in Hia', Hok'.
      split; [congruence|]. split; [cbn [map fst snd]; congruence|]. split.
      * exists (rendered (LT w) (headings level J) ++ added')%list,
          (directories texdir J ++ printed')%list.
        rewrite Hl', Ho', Hl1, Ho1, <- !app_assoc.
        repeat split; now apply initial_app_l.
      * intros ->. destruct (Hok' eq_refl) as (Hl2 & Ho2 & Hr2 & He2 & Hm2).
        rewrite Hl2, Ho2, Hl1, Ho1, <- !app_assoc, He1, He2, make_each_app, Hm1, Hm2.
        repeat split. apply Forall_app. split; [exact Hr1|].
        eapply renders_table; eassumption.
    + injection H as <- <- <-.
      split; [exact Ht|]. split; [cbn [map fst snd]; congruence|]. split.
      * exists added, printed. repeat split; auto using initial_app_r.
      * discriminate.
    + injection H as <- <- <-.
      split; [exact Ht|]. split; [cbn [map fst snd]; congruence|]. split.
      * exists added, printed. repeat split; auto using initial_app_r.
      * discriminate.
Qed.

Lemma mjdoc_MakeLaTeX_loop_returns js :
  forall texdir level w,
    forallb (fun kJ => exportable (snd kJ)) js = true ->
    Forall (renders (LT w)) (flat_map (fun kJ => headings level (snd kJ)) js) ->
    make_each (fs w) (flat_map (fun kJ => directories texdir (snd kJ)) js) <> None ->
    exists js' w', mjdoc_MakeLaTeX_loop js texdir level w = (Ok tt, js', w').
Proof.
  induction js as [|[k J] js IH]; intros texdir level w He Hr Hm.
  - now exists [], w.
  - cbn [forallb flat_map snd] in He, Hr, Hm.
    apply andb_prop in He as [He1 He2]. apply Forall_app in Hr as [Hr1 Hr2].
    apply make_each_app_Some in Hm as (f1 & Hm1 & Hm2).
    destruct (@call_MakeLaTeX_returns _ J texdir level w He1 Hr1) as (J' & w1 & Ec);
      [congruence|].
    cbn [mjdoc_MakeLaTeX_loop]. rewrite Ec.
    apply call_MakeLaTeX_outcome in Ec as (Ht & _ & _ & Hok).
    destruct (Hok _ eq_refl) as (_ & _ & _ & _ & Hfs & _).
    assert (f1 = fs w1) by congruence. subst f1.
    destruct (IH texdir level w1 He2) as (js' & w2 & Er);
      [eapply renders_table; [symmetry; exact Ht | exact Hr2] | exact Hm2 |].
    rewrite Er. now exists ((k, J') :: js'), w2.
Qed.

(** The export of a document, whatever its result.  The table of the
    template is not changed and no line of the accumulator is lost: it
    gains a beginning of the headings of the document, each journal
    before its children, and the output a beginning of the directories
    of its journals.  The document and its elements are as before but for
    what the pass assigns, [_texdir] and [_includes]. *)
Theorem mjdoc_MakeLaTeX_frame d texdir level w r d' w' :
  mjdoc_MakeLaTeX d texdir level w = (r, d', w') ->
  LaTeXLevels (LT w') = LaTeXLevels (LT w)
  /\ doc_forget_export d' = doc_forget_export d
  /\ doc__texdir d' = Some texdir
  /\ exists added printed,
       lines (LT w') = (lines (LT w) ++ added)%list
       /\ out w' = (out w ++ printed)%list
       /\ initial added (rendered (LT w) (doc_headings level d))
       /\ initial printed (doc_directories texdir d).
Proof.
  unfold mjdoc_MakeLaTeX. cbn [doc_Journals set_doc__texdir].
  destruct (mjdoc_MakeLaTeX_loop (doc_Journals d) texdir level w) as [[r1 js] w1] eqn:E.
  intros [= <- <- <-].
  apply mjdoc_MakeLaTeX_loop_outcome in E as (Ht & Hf & Hadd & _).
  split; [exact Ht|]. split; [|split; [reflexivity | exact Hadd]].
  unfold doc_forget_export, set_doc_Journals, set_doc__texdir.
  cbn [doc_Journals doc_verbose path abs_path Content rel_path indexPath index_
       macjournalml bookcase doc__texdir].
  now rewrite Hf.
Qed.

(** The export of a document where it returns: the accumulator has
    gained the lines of all the headings of the document, each journal
    before its children and the children in order; the path of each
    journal directory was printed, in the same order; and the file system
    is the one in which each of these directories was made when the pass
    came to it and found it missing. *)
Theorem mjdoc_MakeLaTeX_result d texdir level w d' w' :
  mjdoc_MakeLaTeX d texdir level w = (Ok tt, d', w') ->
  lines (LT w') = (lines (LT w) ++ rendered (LT w) (doc_headings level d))%list
  /\ length (rendered (LT w) (doc_headings level d)) = length (doc_headings level d)
  /\ out w' = (out w ++ doc_directories texdir d)%list
  /\ make_each (fs w) (doc_directories texdir d) = Some (fs w').
Proof.
  unfold mjdoc_MakeLaTeX. cbn [doc_Journals set_doc__texdir].
  destruct (mjdoc_MakeLaTeX_loop (doc_Journals d) texdir level w) as [[r1 js] w1] eqn:E.
  intros [= -> <- <-].
  apply mjdoc_MakeLaTeX_loop_outcome in E as (_ & _ & _ & Hok).
  destruct (Hok eq_refl) as (Hl & Ho & Hr & _ & Hm).
  repeat split; try assumption.
  fold (doc_headings level d) in Hr. clear -Hr.
  induction Hr as [|h hs Hh _ IH]; [reflexivity|].
  unfold rendered in *. cbn [flat_map]. unfold renders in Hh.
  destruct (heading_line (LT w) h); [|congruence]. cbn. now rewrite IH.
Qed.

(** When the export of a document returns: exactly when no journal of
    the document, at any depth, is a smart journal or lacks its
    [children]; the table has a name for the level of every heading; and
    every journal directory is there or can be made when the pass comes
    to it. *)
Theorem mjdoc_MakeLaTeX_returns d texdir level w :
  (exists d' w', mjdoc_MakeLaTeX d texdir level w = (Ok tt, d', w'))
  <-> doc_exportable d = true
      /\ Forall (renders (LT w)) (doc_headings level d)
      /\ make_each (fs w) (doc_directories texdir d) <> None.
Proof.
  unfold mjdoc_MakeLaTeX. cbn [doc_Journals set_doc__texdir]. split.
  - intros (d' & w' & H).
    destruct (mjdoc_MakeLaTeX_loop (doc_Journals d) texdir level w) as [[r1 js] w1] eqn:E.
    injection H as -> _ _.
    apply mjdoc_MakeLaTeX_loop_outcome in E as (_ & _ & _ & Hok).
    destruct (Hok eq_refl) as (_ & _ & Hr & He & Hm).
    repeat split; try assumption. unfold doc_directories. congruence.
  - intros (He & Hr & Hm).
    destruct (mjdoc_MakeLaTeX_loop_returns _ texdir level _ He Hr Hm) as (js' & w' & E).
    rewrite E. eauto.
Qed.

End DocumentExportResults.

Lemma mjdoc_MakeLaTeX_frame_witness :
  let X := mjdoc_MakeLaTeX Sample_run.document "/tmp/tex" 2 Sample_keywords.world in
  fst (fst X) = Raise LookupError
  /\ lines (LT (snd X)) = [journal_line "subsubsection" "Personal"]
  /\ LaTeXLevels (LT (snd X)) = LaTeXLevels (LT Sample_keywords.world)
  /\ doc_forget_export (snd (fst X)) = doc_forget_export Sample_run.document
  /\ doc__texdir (snd (fst X)) = Some "/tmp/tex"
  /\ exists added printed,
       lines (LT (snd X)) = (lines (LT Sample_keywords.world) ++ added)%list
       /\ out (snd X) = (out Sample_keywords.world ++ printed)%list
       /\ initial added (rendered (LT Sample_keywords.world)
                           (doc_headings 2 Sample_run.document))
       /\ initial printed (doc_directories "/tmp/tex" Sample_run.document).
Proof.
  intros X. split; [reflexivity|]. split; [reflexivity|].
  apply (@mjdoc_MakeLaTeX_frame Sample.lenient Sample_run.document "/tmp/tex" 2
           Sample_keywords.world (fst (fst X)) (snd (fst X)) (snd X)).
  reflexivity.
Defined.

Lemma mjdoc_MakeLaTeX_result_witness :
  let X := mjdoc_MakeLaTeX Sample_run.document "/tmp/tex" 0 Sample_keywords.world in
  mjdoc_MakeLaTeX Sample_run.document "/tmp/tex" 0 Sample_keywords.world
  = (Ok tt, snd (fst X), snd X)
  /\ doc_headings 0 Sample_run.document
     = [mkHeading 0 false "Personal"; mkHeading 1 true "Day One"]
  /\ doc_directories "/tmp/tex" Sample_run.document = ["/tmp/tex/Personal"]
  /\ lines (LT (snd X))
     = (lines (LT Sample_keywords.world)
        ++ rendered (LT Sample_keywords.world) (doc_headings 0 Sample_run.document))%list
  /\ length (rendered (LT Sample_keywords.world) (doc_headings 0 Sample_run.document))
     = length (doc_headings 0 Sample_run.document)
  /\ out (snd X) = (out Sample_keywords.world ++ doc_directories "/tmp/tex" Sample_run.document)%list
  /\ make_each (fs Sample_keywords.world) (doc_directories "/tmp/tex" Sample_run.document)
     = Some (fs (snd X)).
Proof.
  intros X. split; [reflexivity|]. split; [reflexivity|]. split; [reflexivity|].
  apply (@mjdoc_MakeLaTeX_result Sample.lenient Sample_run.document "/tmp/tex" 0
           Sample_keywords.world (snd (fst X)) (snd X)).
  reflexivity.
Defined.

Section ExportAssignments.

Context {P : Platform}.

Lemma last_cons {A} (x d : A) l : last (x :: l) d = last l x.
Proof.
  revert x d. induction l as [|y l IH]; intros x d; [reflexivity|].
  change (last (x :: y :: l) d) with (last (y :: l) d).
  now rewrite (IH y d), (IH y x).
Qed.

Lemma fold_left_last {A B} (f : A -> B) cs x :
  fold_left (fun _ c => Some (f c)) cs (Some x) = Some (last (map f cs) x).
Proof.
  revert x. induction cs as [|c cs IH]; intros x; [reflexivity|].
  cbn [fold_left map]. now rewrite IH, last_cons.
Qed.

Lemma call_MakeLaTeX__texdir self texdir level w v self' w' :
  call_MakeLaTeX self texdir level w = (Ok v, self', w') ->
  _texdir (attrs self') = Some (assigned__texdir texdir self).
Proof.
  unfold call_MakeLaTeX. destruct self as [cls a j | a e].
  - destruct (classic_smart cls) as [-> | Hcls]; [discriminate|].
    assert (Hb : binds (MakeLaTeX_parameters (Journal cls a j)) 2 ["level"] = true)
      by (destruct cls; [reflexivity | congruence | reflexivity]).
    rewrite Hb, MakeLaTeX_journal by exact Hcls. cbv zeta.
    destruct (made_directory _ _) as [w2|]; [|discriminate].
    destruct (LaTeXLevels (LT w2) level); [|discriminate].
    destruct (children j) as [cs|]; [|discriminate].
    destruct (MakeLaTeX_children cs _ level _ _) as [[[r1 cs'] inc'] w3].
    now intros [= _ <- _].
  - cbn [MakeLaTeX_parameters].
    change (binds [("LT", false); ("texdir", false); ("level", true)] 2 ["level"])
      with true. cbn [MakeLaTeX].
    destruct (LaTeXLevels (LT w) level); [|discriminate].
    now intros [= _ <- _].
Qed.

Lemma MakeLaTeX_children__texdir cs :
  forall dir level inc w v cs' inc' w',
    MakeLaTeX_children cs dir level inc w = (Ok v, cs', inc', w') ->
    Forall2 (fun c c' => _texdir (attrs c') = Some (assigned__texdir dir c)) cs cs'.
Proof.
  induction cs as [|c cs IH]; intros dir level inc w v cs' inc' w' H.
  - injection H as _ <- _ _. constructor.
  - cbn [MakeLaTeX_children] in H.
    destruct (call_MakeLaTeX c dir (level + 1) w) as [[[vc|e|] c'] w1] eqn:Ec;
      try discriminate.
    destruct (MakeLaTeX_children cs dir level (Some vc) w1) as [[[r1 rest'] inc1] w2] eqn:Er.
    injection H as -> <- _ _. constructor.
    + eapply call_MakeLaTeX__texdir; exact Ec.
    + eapply IH; exact Er.
Qed.

(** What a journal is left with by an export that returns.  The journal
    has its own directory in the one it was given as [_texdir], each
    child entry that directory and each child journal its own directory
    in it.  [_includes] is not a list of what the children returned: it
    is what the last child returned, the path of an entry or [None] for
    a journal, and the empty list only when there is no child. *)
Theorem journal_MakeLaTeX_assigns cls a j cs texdir level w v self' w' :
  children j = Some cs ->
  call_MakeLaTeX (Journal cls a j) texdir level w = (Ok v, self', w') ->
  exists a' j' cs',
    self' = Journal cls a' j'
    /\ _texdir a' = Some (os_path.join texdir [name a])
    /\ children j' = Some cs'
    /\ Forall2 (fun c c' => _texdir (attrs c')
                            = Some (assigned__texdir (os_path.join texdir [name a]) c)) cs cs'
    /\ _includes j'
       = Some (last (map (returned (os_path.join texdir [name a])) cs) (PyList [])).
Proof.
  intros Ecs H. unfold call_MakeLaTeX in H.
  destruct (classic_smart cls) as [-> | Hcls]; [discriminate|].
  assert (Hb : binds (MakeLaTeX_parameters (Journal cls a j)) 2 ["level"] = true)
    by (destruct cls; [reflexivity | congruence | reflexivity]).
  rewrite Hb, MakeLaTeX_journal in H by exact Hcls. cbv zeta in H.
  destruct (made_directory _ _) as [w2|]; [|discriminate].
  destruct (LaTeXLevels (LT w2) level) as [texLevel|]; [|discriminate].
  rewrite Ecs in H.
  destruct (MakeLaTeX_children cs _ level _ _) as [[[r1 cs'] inc'] w3] eqn:Ec.
  injection H as -> <- _.
  pose proof (MakeLaTeX_children__texdir _ _ _ _ _ Ec) as Hdirs.
  apply MakeLaTeX_children_outcome in Ec as (_ & _ & _ & Hok);
    [|apply Forall_forall; intros c _; apply call_MakeLaTeX_outcome].
  destruct (Hok v eq_refl) as (_ & _ & _ & _ & _ & Hinc & _).
  do 3 eexists. split; [reflexivity|]. cbn [_texdir set__texdir children _includes].
  repeat split; [exact Hdirs|]. now rewrite Hinc, fold_left_last.
Qed.

End ExportAssignments.

Lemma journal_MakeLaTeX_assigns_witness :
  match Sample_run.journal_personal with
  | Some (Journal cls a j) =>
      let X := call_MakeLaTeX (Journal cls a j) "/tmp/tex" 0 Sample_keywords.world in
      exists cs a' j' cs',
        children j = Some cs
        /\ X = (Ok PyNone, snd (fst X), snd X)
        /\ snd (fst X) = Journal cls a' j'
        /\ _texdir a' = Some "/tmp/tex/Personal"
        /\ children j' = Some cs'
        /\ Forall2 (fun c c' => _texdir (attrs c')
                                = Some (assigned__texdir "/tmp/tex/Personal" c)) cs cs'
        /\ _includes j' = Some (PyStr "/tmp/tex/Personal/Day One")
  | _ => False
  end.
Proof.
  cbv beta iota delta [Sample_run.journal_personal]. intros X.
  match goal with
  | X := call_MakeLaTeX (Journal ?cls ?a ?j) _ _ _ |- _ =>
      destruct (@journal_MakeLaTeX_assigns Sample.lenient cls a j _ "/tmp/tex" 0%Z
                  Sample_keywords.world PyNone (snd (fst X)) (snd X) eq_refl eq_refl)
        as (a' & j' & cs' & H1 & H2 & H3 & H4 & H5)
  end.
  eexists _, a', j', cs'. repeat split; eassumption.
Defined.

(** ** What the constructors make of the markup *)



Section ConstructionOfElements.

Context {P : Platform}.








End ConstructionOfElements.

Section ConstructionOfDocuments.

Context {P : Platform}.



End ConstructionOfDocuments.

Section ElementsOfMarkup.

Context {P : Platform}.









End ElementsOfMarkup.


Lemma sample_entry_in_document :
  match Sample_run.entry_day_one with
  | Some E => in_document E Sample_run.document
  | None => False
  end.
Proof.
  cbv beta iota delta [Sample_run.entry_day_one].
  eexists "Personal", _. split; [left; reflexivity|].
  eapply within_child; [reflexivity | left; reflexivity | apply within_self].
Qed.



Section ExportOfConstructed.

Context {P : Platform}.



End ExportOfConstructed.


(** ** The collections of a journal and of a document *)




Section Collections.

Context {P : Platform}.




End Collections.

Section CollectionsOfDocuments.

Context {P : Platform}.



End CollectionsOfDocuments.



(** ** Keywords at any depth, and keywords that fail *)

Lemma for_each_app {S A B} (xs ys : list A) (body : B -> A -> M S B) :
  forall acc s,
    for_each (xs ++ ys) acc body s
    = bind (for_each xs acc body) (fun acc' => for_each ys acc' body) s.
Proof.
  induction xs as [|x xs IH]; intros acc s; cbn [app for_each].
  - reflexivity.
  - unfold bind in *. destruct (body acc x s) as [[acc1| |] s1]; try reflexivity.
    apply IH.
Qed.

Lemma gather_nil ws : gather [] ws = first_seen ws.
Proof.
  rewrite gather_first_seen. cbn [app existsb negb].
  f_equal. induction ws as [|w ws IH]; cbn [filter]; congruence.
Qed.

Section KeywordsAtAnyDepth.

Context {P : Platform}.

(** The keywords of an element are gathered from the [keyword] elements
    at any depth of its template, in document order: when each of them
    begins with text, [keywords] returns their texts with duplicates
    dropped, each word where it is first seen, and keeps the list for
    the calls that follow. *)
Theorem keywords_of_descendants self template found :
  _keywords (attrs self) = None ->
  _keywordsElements (attrs self) = Some template ->
  minidom.getElementsByTagName template "keyword" = Ok found ->
  Forall (fun k => has_text k = true) found ->
  exists self',
    keywords self = (Ok (first_seen (texts found)), self')
    /\ keywords self' = (Ok (first_seen (texts found)), self')
    /\ self' = with_attrs self (set__keywords (Some (first_seen (texts found))) (attrs self)).
Proof.
  intros Hfresh Ht Hfind Htext. eexists. split; [|split; [|reflexivity]].
  - unfold keywords. rewrite Hfresh.
    unfold bind at 1. unfold assign__keywords at 1, modify.
    rewrite Ht. unfold bind at 1. unfold bind at 1. unfold lift at 1. rewrite Hfind.
    destruct found as [|k0 ks] eqn:Hf.
    + cbn. unfold ret, get__keywords. now rewrite attrs_with_attrs.
    + cbn [nonempty]. rewrite <- Hf in *.
      erewrite keywords_loop; [ | exact Htext | now rewrite attrs_with_attrs ].
      unfold get__keywords. rewrite !attrs_with_attrs, with_attrs_with_attrs.
      cbn [_keywords set__keywords]. now rewrite gather_nil.
  - unfold keywords at 1. now rewrite attrs_with_attrs.
Qed.

(** A [keyword] element that does not begin with text makes [keywords]
    raise an [AttributeError], but only the first time: the words
    gathered before it are kept, and every later call returns this
    shorter list without an error. *)
Theorem keywords_after_failure self template pre k rest :
  _keywords (attrs self) = None ->
  _keywordsElements (attrs self) = Some template ->
  minidom.getElementsByTagName template "keyword" = Ok (pre ++ k :: rest)%list ->
  Forall (fun k => has_text k = true) pre ->
  has_text k = false ->
  exists self',
    keywords self = (Raise AttributeError, self')
    /\ keywords self' = (Ok (first_seen (texts pre)), self')
    /\ self' = with_attrs self (set__keywords (Some (first_seen (texts pre))) (attrs self)).
Proof.
  intros Hfresh Ht Hfind Htext Hk. eexists. split; [|split; [|reflexivity]].
  - unfold keywords. rewrite Hfresh.
    unfold bind at 1. unfold assign__keywords at 1, modify.
    rewrite Ht. unfold bind at 1. unfold bind at 1. unfold lift at 1. rewrite Hfind.
    assert (Hne : nonempty (pre ++ k :: rest) = true) by now destruct pre.
    rewrite Hne, for_each_app. unfold bind at 1.
    erewrite keywords_loop; [ | exact Htext | now rewrite attrs_with_attrs ].
    rewrite with_attrs_with_attrs, attrs_with_attrs. cbn [set__keywords].
    cbn [for_each]. unfold bind at 1. unfold bind at 1. unfold lift at 1.
    unfold has_text in Hk.
    destruct (minidom.firstChild_wholeText k) as [word|e|] eqn:Hword; try discriminate.
    + rewrite gather_nil. f_equal. f_equal.
      unfold minidom.firstChild_wholeText in Hword.
      destruct (minidom.childNodes k) as [|c cs]; [congruence|].
      destruct (minidom.text_data c); congruence.
    + unfold minidom.firstChild_wholeText in Hword.
      destruct (minidom.childNodes k) as [|c cs]; [discriminate|].
      destruct (minidom.text_data c); discriminate.
  - unfold keywords at 1. now rewrite attrs_with_attrs.
Qed.

End KeywordsAtAnyDepth.

Lemma keywords_of_descendants_witness :
  exists self template found,
    @entry___init__ Sample.lenient Sample_nested.grouped (O_mjdoc "/doc" "") false []
    = Ok self
    /\ _keywords (attrs self) = None
    /\ _keywordsElements (attrs self) = Some template
    /\ minidom.getElementsByTagName template "keyword" = Ok found
    /\ Forall (fun k => has_text k = true) found
    /\ first_seen (texts found) = ["deep"; "top"]
    /\ exists self',
         keywords self = (Ok (first_seen (texts found)), self')
         /\ keywords self' = (Ok (first_seen (texts found)), self')
         /\ self' = with_attrs self
                      (set__keywords (Some (first_seen (texts found))) (attrs self)).
Proof.
  eexists _, _, _. split; [vm_compute; reflexivity|].
  split; [reflexivity|]. split; [reflexivity|]. split; [reflexivity|].
  assert (Ht : Forall (fun k => has_text k = true)
                 [Element "keyword" [] [Text "deep"]; Element "keyword" [] [Text "top"];
                  Element "keyword" [] [Text "deep"]])
    by (repeat constructor).
  split; [exact Ht|]. split; [reflexivity|].
  eapply (@keywords_of_descendants Sample.lenient);
    [reflexivity | reflexivity | reflexivity | exact Ht].
Defined.

Lemma keywords_after_failure_witness :
  exists self template pre k rest,
    @entry___init__ Sample.lenient Sample_nested.broken (O_mjdoc "/doc" "") false []
    = Ok self
    /\ _keywords (attrs self) = None
    /\ _keywordsElements (attrs self) = Some template
    /\ minidom.getElementsByTagName template "keyword" = Ok (pre ++ k :: rest)%list
    /\ Forall (fun k => has_text k = true) pre
    /\ has_text k = false
    /\ first_seen (texts pre) = ["work"]
    /\ exists self',
         keywords self = (Raise AttributeError, self')
         /\ keywords self' = (Ok (first_seen (texts pre)), self')
         /\ self' = with_attrs self
                      (set__keywords (Some (first_seen (texts pre))) (attrs self)).
Proof.
  eexists _, _, [Element "keyword" [] [Text "work"]], (Element "keyword" [] []),
    [Element "keyword" [] [Text "home"]].
  split; [vm_compute; reflexivity|].
  split; [reflexivity|]. split; [reflexivity|]. split; [reflexivity|].
  assert (Ht : Forall (fun k => has_text k = true) [Element "keyword" [] [Text "work"]])
    by (repeat constructor).
  split; [exact Ht|]. split; [reflexivity|]. split; [reflexivity|].
  eapply (@keywords_after_failure Sample.lenient);
    [reflexivity | reflexivity | reflexivity | exact Ht | reflexivity].
Defined.

(** ** What a document must be made of *)

Section LoadableDocuments.

Context {P : Platform}.



(** [mjdoc.__init__] hands its extra keyword arguments on to
    [_childFactory], which takes none: with any such argument, a
    document that has a child node in the [children] element of its
    bookcase is not constructed; the call raises a [TypeError] once the
    index is read. *)
Theorem mjdoc___init___kwargs fuel f path v kw s index m b c :
  nonempty kw = true ->
  os_path_isdir f path = true ->
  read_index f (os_path.join (os_path_normpath path) ["index.mjml.gz"]) = Some index ->
  first_element index "macjournalml" = Ok m ->
  first_element m "bookcase" = Ok b ->
  first_element b "children" = Ok c ->
  minidom.childNodes c <> [] ->
  mjdoc___init__ fuel f path v kw s
  = (Raise TypeError,
     (s ++ [os_path.join (os_path_normpath path) ["index.mjml.gz"]])%list).
Proof.
  intros Hkw Hdir Hindex Hm Hb Hc Hne.
  unfold first_element in Hm, Hb, Hc.
  destruct (minidom.getElementsByTagName index "macjournalml") as [ms| |] eqn:Ems;
    try discriminate.
  destruct (minidom.getElementsByTagName m "bookcase") as [bs| |] eqn:Ebs;
    try discriminate.
  destruct (minidom.getElementsByTagName b "children") as [cs| |] eqn:Ecs;
    try discriminate.
  cbn [rbind] in Hm, Hb, Hc.
  unfold mjdoc___init__. rewrite Hdir. cbn [negb].
  unfold bind at 1. unfold print, modify.
  unfold bind at 1. unfold lift at 1. rewrite Hindex.
  unfold bind at 1. unfold lift at 1. rewrite Ems.
  unfold bind at 1. unfold lift at 1. rewrite Hm.
  unfold bind at 1. unfold lift at 1. rewrite Ebs.
  unfold bind at 1. unfold lift at 1. rewrite Hb.
  unfold bind at 1. unfold lift at 1. rewrite Ecs.
  unfold bind at 1. unfold lift at 1. rewrite Hc.
  destruct (minidom.childNodes c) as [|n ns]; [congruence|].
  cbn [for_each]. unfold bind at 1. unfold bind at 1.
  unfold call__childFactory. rewrite Hkw. reflexivity.
Qed.

End LoadableDocuments.


Lemma mjdoc___init___kwargs_witness :
  @mjdoc___init__ Sample.lenient 1 Sample.disk Sample_run.location_ false
    [("encoding", PyStr "utf-8")] []
  = (Raise TypeError, ["/Users/me/Journal.mjdoc/index.mjml.gz"]).
Proof.
  eapply (@mjdoc___init___kwargs Sample.lenient 1 Sample.disk Sample_run.location_ false
            [("encoding", PyStr "utf-8")] []);
    [ reflexivity | reflexivity | reflexivity | reflexivity | reflexivity | reflexivity
    | discriminate ].
Defined.

(** ** The hierarchy listing *)

Section HierarchyListing.

Context {P : Platform}.










End HierarchyListing.



(** ** The location of an entry that has one *)

Section LocationResults.

Context {P : Platform}.


End LocationResults.

